(** * inverno: the valuation pipeline of [inverno/project.py]

    A shallow embedding of [Project] (src/inverno/project.py): first
    holdings, currency resolution, per-holding price histories, the aligned
    price table and the report series, with the pandas operations the code
    calls written out on lists.

    Conventions.
    - A date is a calendar-day number ([Z]); [pd.date_range] steps by one.
    - A float is a rational ([Q]); NaN is [None], so a cell is [option Q].
    - A [pd.Series] is its name and its rows [(label, value)] in index order.
    - [log_info]/[log_warning] append to a log; a Python exception is
      [Raise].  A computation is a pair (log, result). *)

From Stdlib Require Import ZArith QArith Lia Lqa.
From stdpp Require Import base option list strings gmap.

Local Open Scope Z_scope.

(** ** Effects: logging and exceptions *)

Inductive LogMsg :=
| Info (msg : string)
| Warning (msg : string).

Inductive Exn :=
| ValueError (msg : string)
| KeyError (msg : string).

Inductive result (A : Type) :=
| Return (a : A)
| Raise (e : Exn).
Arguments Return {A} a.
Arguments Raise {A} e.

Definition M (A : Type) : Type := (list LogMsg * result A)%type.

Definition ret {A} (a : A) : M A := ([], Return a).
Definition raise {A} (e : Exn) : M A := ([], Raise e).
Definition log_info (msg : string) : M unit := ([Info msg], Return tt).
Definition log_warning (msg : string) : M unit := ([Warning msg], Return tt).

Definition bind {A B} (m : M A) (f : A -> M B) : M B :=
  match m with
  | (l1, Return a) => let '(l2, r) := f a in (l1 ++ l2, r)
  | (l1, Raise e) => (l1, Raise e)
  end.

Definition lift {A} (r : result A) : M A := ([], r).

Declare Scope py_scope.
Delimit Scope py_scope with py.
Notation "x <- m ;; k" := (bind m (fun x => k))
  (at level 100, m at next level, right associativity) : py_scope.
Notation "m ;;; k" := (bind m (fun _ => k))
  (at level 100, right associativity) : py_scope.

(** A [for] loop threading an accumulator through a body that may log or
    raise; the first exception leaves the loop. *)
Fixpoint for_each {A S} (body : A -> S -> M S) (xs : list A) (s : S) : M S :=
  match xs with
  | [] => ret s
  | x :: xs' => bind (body x s) (for_each body xs')
  end.

Definition logs {A} (m : M A) : list LogMsg := fst m.
Definition outcome {A} (m : M A) : result A := snd m.

(** ** Data model *)

Abbreviation date := Z.
Abbreviation cell := (option Q).

(** [.price.Price]: an amount and its currency. *)
Record Price (Currency : Type) := {
  amount : Q;
  currency : Currency
}.
Arguments amount {Currency} _.
Arguments currency {Currency} _.

(** [.holding.Holding]: the code reads [get_key()] and [ticker]; the
    quantity is the one a balance holds (spec section 3). *)
Record Holding := {
  get_key : string;
  ticker : option string;
  quantity : Q
}.

(** A transaction: [trs.date], [trs.price] (None when it carries none) and
    the quantity delta of spec section 3. *)
Record Transaction (Currency : Type) := {
  trs_date : date;
  trs_quantity : Q;
  trs_price : option (Price Currency)
}.
Arguments trs_date {Currency} _.
Arguments trs_quantity {Currency} _.
Arguments trs_price {Currency} _.

(** [.balance.Balance]: [balance.date] and [balance.holdings.values()]. *)
Record Balance := {
  bal_date : date;
  bal_holdings : list Holding
}.

(** A [pd.Series]: [s.name] and the rows in index order. *)
Record Series := {
  name : string;
  rows : list (date * cell)
}.

(** A [pd.DataFrame] with a date index: [index] and, per column, its
    label and its cells, aligned with [index]. *)
Record DataFrame := {
  index : list date;
  columns : list (string * list cell)
}.

(** An entry of [self._first_holdings]: [{"date": ..., "holding": ...}]. *)
Record Entry := {
  entry_date : date;
  entry_holding : Holding
}.

(** [.config.Config], as far as [Project] reads it. *)
Record Config (Currency : Type) := {
  transactions : list (Transaction Currency);
  transactions_by_holding : Holding -> list (Transaction Currency);
  get_currency : Holding -> option Currency;
  get_prices : Holding -> date -> date -> option Series;
  end_date : date;
  days : Z
}.
Arguments transactions {Currency} _.
Arguments transactions_by_holding {Currency} _ _.
Arguments get_currency {Currency} _ _.
Arguments get_prices {Currency} _ _ _ _.
Arguments end_date {Currency} _.
Arguments days {Currency} _.

(** ** pandas and numpy operations used by the code *)

Module pd.

(** [pd.date_range(a, b)], daily: a, a+1, ..., b; empty when b < a. *)
Definition date_range (a b : date) : list date :=
  (fun i => a + Z.of_nat i) <$> seq 0 (Z.to_nat (b - a + 1)).

Definition labels (rs : list (date * cell)) : list date := fst <$> rs.

(** [s.index.min()] and [s.index.max()] of a non-empty index. *)
Definition index_min (d : date) (ds : list date) : date := foldr Z.min d ds.
Definition index_max (d : date) (ds : list date) : date := foldr Z.max d ds.

Fixpoint increasing (ds : list date) : bool :=
  match ds with
  | d1 :: ((d2 :: _) as tl) => (d1 <? d2) && increasing tl
  | _ => true
  end.

Fixpoint decreasing (ds : list date) : bool :=
  match ds with
  | d1 :: ((d2 :: _) as tl) => (d2 <? d1) && decreasing tl
  | _ => true
  end.

(** The row a label reads under [method="pad"] from an increasing index:
    the last row whose label is at most [t]. *)
Fixpoint pad_increasing (t : date) (rs : list (date * cell)) (acc : cell) : cell :=
  match rs with
  | [] => acc
  | (d, v) :: rs' => if d <=? t then pad_increasing t rs' v else acc
  end.

(** From a decreasing index, an exact match, and otherwise the row just
    before the insertion point: the last row whose label is above [t]. *)
Fixpoint pad_decreasing (t : date) (rs : list (date * cell)) (acc : cell) : cell :=
  match rs with
  | [] => acc
  | (d, v) :: rs' =>
      if d =? t then v
      else if t <? d then pad_decreasing t rs' v else acc
  end.

(** Whether some label occurs more than once. *)
Fixpoint has_duplicates (ds : list date) : bool :=
  match ds with
  | [] => false
  | d :: ds' => existsb (Z.eqb d) ds' || has_duplicates ds'
  end.

(** [s.reindex(index=new_index, method="pad")].  Filling compares labels
    only: a row that exists keeps its value, NaN included.  An index
    with a repeated label raises, and so does one that is not monotonic. *)
Definition reindex_pad (s : Series) (new_index : list date) : result Series :=
  if has_duplicates (labels (rows s)) then
    Raise (ValueError "cannot reindex a non-unique index with a method or limit")
  else if increasing (labels (rows s)) then
    Return {| name := name s;
              rows := (fun t => (t, pad_increasing t (rows s) None)) <$> new_index |}
  else if decreasing (labels (rows s)) then
    Return {| name := name s;
              rows := (fun t => (t, pad_decreasing t (rows s) None)) <$> new_index |}
  else Raise (ValueError "index must be monotonic increasing or decreasing").

(** [pd.Series(index=idx, dtype=np.float64)]: every value NaN. *)
Definition empty_series (idx : list date) : list (date * cell) :=
  (fun d => (d, None)) <$> idx.

(** [s[d] = v]: the rows labelled [d] take [v]; with no such row the
    series is enlarged by one row at its end. *)
Definition setitem (rs : list (date * cell)) (d : date) (v : Q) : list (date * cell) :=
  if existsb (fun r => fst r =? d) rs
  then (fun r => if fst r =? d then (fst r, Some v) else r) <$> rs
  else rs ++ [(d, Some v)].

(** [s.tail(n)]: the last [n] rows. *)
Definition tail {A} (n : nat) (l : list A) : list A :=
  drop (length l - n)%nat l.

Definition isnan (c : cell) : bool :=
  match c with None => true | Some _ => false end.

(** The union of the indexes of an outer join, in increasing order. *)
Fixpoint insert_label (d : date) (l : list date) : list date :=
  match l with
  | [] => [d]
  | x :: l' =>
      if d <? x then d :: l
      else if d =? x then l
      else x :: insert_label d l'
  end.

Definition union_index (ls : list (list date)) : list date :=
  foldr insert_label [] (mjoin ls).

(** The cell a column reads at a label of the joined index: the row of
    that label, NaN when the series has none. *)
Definition at_label (rs : list (date * cell)) (d : date) : cell :=
  match List.find (fun r => fst r =? d) rs with
  | Some r => snd r
  | None => None
  end.

(** [pd.concat(objs, axis=1, join="outer")] on series. *)
Definition concat (objs : list Series) : result DataFrame :=
  match objs with
  | [] => Raise (ValueError "No objects to concatenate")
  | _ :: _ =>
      let idx := union_index ((fun s => labels (rows s)) <$> objs) in
      Return {| index := idx;
                columns := (fun s => (name s, at_label (rows s) <$> idx)) <$> objs |}
  end.

(** The rows of a column that hold a value. *)
Definition known (idx : list date) (col : list cell) : list (date * Q) :=
  omap (fun r => (fun v => (fst r, v)) <$> snd r) (zip idx col).

(** [np.interp(x, xp, fp)] with [(x0, y0)] the first point and [pts] the
    others: the first value at or left of the first point, the last one
    at or right of the last, and on the segment that contains [x]
    slope * (x - x0) + y0. *)
Fixpoint np_interp (x : date) (x0 : date) (y0 : Q) (pts : list (date * Q)) : Q :=
  match pts with
  | [] => y0
  | (x1, y1) :: pts' =>
      if x <=? x0 then y0
      else if x <? x1
           then ((y1 - y0) / inject_Z (x1 - x0) * inject_Z (x - x0) + y0)%Q
           else np_interp x x1 y1 pts'
  end.

(** One column of [df.interpolate(method="time", limit_direction="both")]:
    a column without any value is left as it is; otherwise every NaN is
    replaced, inside and at both ends. *)
Definition interpolate_column (idx : list date) (col : list cell) : list cell :=
  match known idx col with
  | [] => col
  | (x0, y0) :: pts =>
      (fun r => match snd r with
                | Some v => Some v
                | None => Some (np_interp (fst r) x0 y0 pts)
                end) <$> zip idx col
  end.

Definition interpolate (df : DataFrame) : DataFrame :=
  {| index := index df;
     columns := (fun c => (fst c, interpolate_column (index df) (snd c))) <$> columns df |}.

(** [df.sum(axis=1)]: per row, the sum of the cells that hold a value
    (NaN is skipped). *)
Definition nansum (cs : list cell) : Q :=
  foldr (fun c acc => match c with Some v => (v + acc)%Q | None => acc end) 0%Q cs.

Definition row (df : DataFrame) (i : nat) : list cell :=
  (fun c => default None (snd c !! i)) <$> columns df.

Definition sum_axis1 (df : DataFrame) : list Q :=
  (fun i => nansum (row df i)) <$> seq 0 (length (index df)).

End pd.

(** ** [Project] *)

Section Project.

(** The collaborators of [project.py]: the [Currency] enum of [.price]
    with its lookup by name [Currency[...]], the market-data provider
    ([yf.Ticker(t).info] and [yf.Ticker(t).history(...)["Close"]]) and
    the configuration.  The provider is a pure lookup here: an answer
    that is missing is an absent key or an empty series, and a network
    failure is outside the model. *)
Context {Currency : Type}.
Variable Currency_getitem : string -> option Currency.
Variable yf_info : string -> gmap string string.
Variable yf_history : string -> date -> date -> list (date * cell).
Variable cfg : Config Currency.

Definition key_in (k : string) (holdings : list (string * Entry)) : bool :=
  existsb (fun p => String.eqb (fst p) k) holdings.

(** [_get_first_holdings]: a dict in insertion order, one entry per key,
    made at the first balance that holds the key. *)
Definition _get_first_holdings (balances : list Balance) : list (string * Entry) :=
  foldl (fun holdings balance =>
           foldl (fun holdings holding =>
                    if key_in (get_key holding) holdings then holdings
                    else holdings ++ [(get_key holding,
                                       {| entry_date := bal_date balance;
                                          entry_holding := holding |})])
                 holdings (bal_holdings balance))
        [] balances.

(** The loop over [transactions_by_holding]: the first transaction with
    a price sets the currency and breaks. *)
Fixpoint try_transactions (key : string) (trs : list (Transaction Currency))
    (currencies : gmap string Currency) : gmap string Currency :=
  match trs with
  | [] => currencies
  | t :: trs' =>
      match trs_price t with
      | Some p => <[key := currency p]> currencies
      | None => try_transactions key trs' currencies
      end
  end.

(** [Currency[ticker.info["currency"]]]: either lookup may raise KeyError. *)
Definition yahoo_currency (t : string) : result Currency :=
  match yf_info t !! "currency"%string with
  | None => Raise (KeyError "currency")
  | Some c =>
      match Currency_getitem c with
      | None => Raise (KeyError c)
      | Some cur => Return cur
      end
  end.

Definition unresolved (holding : Holding) : Exn :=
  ValueError ("Couldn't determine currency for " +:+ get_key holding).

(** The body of the loop of [_get_currencies] for one entry. *)
Definition resolve_currency (entry : Entry) (currencies : gmap string Currency)
    : M (gmap string Currency) :=
  let holding := entry_holding entry in
  (log_info ("Getting currency for " +:+ get_key holding) ;;;
   let currencies := try_transactions (get_key holding)
                       (transactions_by_holding cfg holding) currencies in
   if bool_decide (is_Some (currencies !! get_key holding)) then ret currencies
   else
     match get_currency cfg holding with
     | Some c => ret (<[get_key holding := c]> currencies)
     | None =>
         match ticker holding with
         | Some t =>
             match yahoo_currency t with
             | Return c => ret (<[get_key holding := c]> currencies)
             | Raise (KeyError _) => raise (unresolved holding)
             | Raise e => raise e
             end
         | None => raise (unresolved holding)
         end
     end)%py.

Definition _get_currencies (first_holdings : list (string * Entry))
    : M (gmap string Currency) :=
  for_each resolve_currency (snd <$> first_holdings) ∅.

(** [_reindex]: daily from the first to the last label, with pad. *)
Definition _reindex (s : Series) : result Series :=
  match pd.labels (rows s) with
  | [] => Raise (ValueError "Neither `start` nor `end` can be NaT")
  | d :: ds =>
      pd.reindex_pad s (pd.date_range (pd.index_min d ds) (pd.index_max d ds))
  end.

(** The loop that writes the priced transactions into the series. *)
Definition set_transaction_prices (trs : list (Transaction Currency))
    (rs : list (date * cell)) : list (date * cell) :=
  foldl (fun rs t =>
           match trs_price t with
           | None => rs
           | Some p => pd.setitem rs (trs_date t) (amount p)
           end) rs trs.

Definition from_transactions (start end_ : date) (holding : Holding) : M (option Series) :=
  (log_warning ("Inferring prices from transactions for " +:+ get_key holding
                +:+ ", prices could be inaccurate") ;;;
   let index := pd.date_range start end_ in
   let prices := {| name := get_key holding;
                    rows := set_transaction_prices
                              (transactions_by_holding cfg holding)
                              (pd.empty_series index) |} in
   s <- lift (_reindex prices) ;;
   ret (Some s))%py.

Definition _get_holding_prices (start end_ : date) (holding : Holding)
    : M (option Series) :=
  (match get_prices cfg holding start end_ with
   | Some prices =>
       log_info ("Using user-provided prices for " +:+ get_key holding) ;;;
       s <- lift (_reindex prices) ;;
       ret (Some s)
   | None =>
       match ticker holding with
       | Some t =>
           let prices := {| name := get_key holding;
                            rows := yf_history t start end_ |} in
           if (0 <? length (rows prices))%nat then
             log_info ("Using Yahoo Finance prices for " +:+ get_key holding) ;;;
             s <- lift (_reindex prices) ;;
             ret (Some s)
           else from_transactions start end_ holding
       | None => from_transactions start end_ holding
       end
   end)%py.

Definition stale (price_history : Series) : bool :=
  forallb pd.isnan (snd <$> pd.tail 7 (rows price_history)).

(** The body of the loop of [_get_prices] for one entry. *)
Definition collect_prices (entry : Entry) (prices : list Series) : M (list Series) :=
  (price_history <- _get_holding_prices (entry_date entry) (end_date cfg)
                                        (entry_holding entry) ;;
   match price_history with
   | Some ph =>
       (if stale ph
        then log_warning ("Most recent price is older than one week for "
                          +:+ get_key (entry_holding entry))
        else ret tt) ;;;
       ret (prices ++ [ph])
   | None => ret prices
   end)%py.

Definition _get_prices (first_holdings : list (string * Entry)) : M DataFrame :=
  (prices <- for_each collect_prices (snd <$> first_holdings) [] ;;
   prices <- lift (pd.concat prices) ;;
   ret (pd.interpolate prices))%py.

(** *** [Analysis] (inverno/analysis.py is not part of the sources) *)

Record Analysis := {
  prices : DataFrame;
  conv_rates : Currency -> Q;
  holdings_currencies : gmap string Currency
}.

(** Modelled from the spec: the daily quantity table of
    [Analysis.get_allocations] (section 4.4): the quantity of the most
    recent balance dated at or before the day, 0 for a holding absent
    from that balance and 0 before the first balance. *)
Definition quantity_on (balances : list Balance) (d : date) (key : string) : Q :=
  match last (filter (fun b => bal_date b <= d) balances) with
  | None => 0%Q
  | Some b =>
      match List.find (fun h => String.eqb (get_key h) key) (bal_holdings b) with
      | Some h => quantity h
      | None => 0%Q
      end
  end.

(** Modelled from the spec: the restriction of a table to its last [n]
    rows (section 4.4, "the last ndays calendar days"). *)
Definition tail_rows (n : nat) (df : DataFrame) : DataFrame :=
  {| index := pd.tail n (index df);
     columns := (fun c => (fst c, pd.tail n (snd c))) <$> columns df |}.

(** Modelled from the spec: one column of the allocation matrix
    (section 4.4): quantity x price x rate, cell by cell; a cell without
    a price stays empty, a holding without a currency is a failed dict
    lookup. *)
Definition allocation_column (an : Analysis) (balances : list Balance)
    (c : string * list cell) : result (string * list cell) :=
  match holdings_currencies an !! c.1 with
  | None => Raise (KeyError c.1)
  | Some cur =>
      Return (c.1,
              zip_with (fun d p =>
                          (fun p => (quantity_on balances d c.1 * p * conv_rates an cur)%Q) <$> p)
                       (index (prices an)) c.2)
  end.

(** Modelled from the spec: the columns of the matrix, one per column of
    the price table, in order. *)
Fixpoint all_columns (an : Analysis) (balances : list Balance)
    (cs : list (string * list cell)) : result (list (string * list cell)) :=
  match cs with
  | [] => Return []
  | c :: cs' =>
      match allocation_column an balances c with
      | Raise e => Raise e
      | Return col =>
          match all_columns an balances cs' with
          | Raise e => Raise e
          | Return cols => Return (col :: cols)
          end
      end
  end.

(** Modelled from the spec: [Analysis.get_allocations(balances, ndays)]
    (section 4.4): quantity x aligned price x conversion rate for every
    day and holding of the price table, restricted to the last [ndays]
    days (all of them when there are fewer).  A holding without a
    resolved currency is a failed dict lookup. *)
Definition get_allocations (an : Analysis) (balances : list Balance) (ndays : Z)
    : result DataFrame :=
  match all_columns an balances (columns (prices an)) with
  | Raise e => Raise e
  | Return cols =>
      Return (tail_rows (Z.to_nat ndays)
                {| index := index (prices an); columns := cols |})
  end.

(** Modelled from the spec: the amount of a transaction in destination
    currency (section 4.5): quantity x price x rate when it carries a
    price, nothing otherwise. *)
Definition cash_amount (an : Analysis) (t : Transaction Currency) : Q :=
  match trs_price t with
  | Some p => (trs_quantity t * amount p * conv_rates an (currency p))%Q
  | None => 0%Q
  end.

(** Modelled from the spec: the net cash flow of a day (section 4.5):
    the signed sum of the amounts of the transactions dated that day. *)
Definition net_cash_flow (an : Analysis) (trs : list (Transaction Currency)) (d : date) : Q :=
  foldr (fun t acc => if trs_date t =? d then (cash_amount an t + acc)%Q else acc) 0%Q trs.

(** Modelled from the spec: the total value of a day of the window
    (section 4.5, [total_value[d]]), read by the date of the day; a day
    that is not in the window has none. *)
Definition total_on (totals : list (date * Q)) (d : date) : option Q :=
  snd <$> List.find (fun r => r.1 =? d) totals.

(** Modelled from the spec: [Analysis.get_earnings(allocations,
    transactions, ndays)] (section 4.5): one entry per day of the
    window; 0 on its first day and, on a later day [d],
    [total_value[d] - total_value[d-1] - net_cash_flow[d]], [d-1] being
    the calendar day before [d]; without a total for that day the entry
    has no value. *)
Definition get_earnings (an : Analysis) (allocations : DataFrame)
    (trs : list (Transaction Currency)) (ndays : Z) : list (date * cell) :=
  let window := tail_rows (Z.to_nat ndays) allocations in
  let totals := zip (index window) (pd.sum_axis1 window) in
  match totals with
  | [] => []
  | (d0, _) :: later =>
      (d0, Some 0%Q)
      :: ((fun r =>
             (r.1,
              prev ← total_on totals (r.1 - 1);
              Some (r.2 - prev - net_cash_flow an trs r.1)%Q)) <$> later)
  end.

(** *** The project and its report *)

Variable _dst_currency_rates : Currency -> Q.

Record Project := {
  balances : list Balance;
  _first_holdings : list (string * Entry);
  _holding_to_currency : gmap string Currency;
  _prices : DataFrame
}.

(** [__init__], with the balances of [Balance.get_balances] given; the
    meta attributes, read by the per-attribute charts only, are left out. *)
Definition __init__ (bals : list Balance) : M Project :=
  (let first_holdings := _get_first_holdings bals in
   currencies <- _get_currencies first_holdings ;;
   prices <- _get_prices first_holdings ;;
   ret {| balances := bals;
          _first_holdings := first_holdings;
          _holding_to_currency := currencies;
          _prices := prices |})%py.

(** A chart of the report: its data and its labels (the days, before
    [strftime]). *)
Record Chart (V : Type) := {
  chart_label : string;
  chart_data : list V;
  chart_labels : list date
}.
#[global] Arguments chart_label {V} _.
#[global] Arguments chart_data {V} _.
#[global] Arguments chart_labels {V} _.

(** The report: the balances, and the earnings whose values may be
    missing (NaN). *)
Record ReportData := {
  report_balances : Chart Q;
  report_earnings : Chart cell
}.

Definition analysis_of (self : Project) : Analysis :=
  {| prices := _prices self;
     conv_rates := _dst_currency_rates;
     holdings_currencies := _holding_to_currency self |}.

(** [_get_report_data], without the per-attribute charts. *)
Definition _get_report_data (self : Project) : result ReportData :=
  let analysis := analysis_of self in
  match get_allocations analysis (balances self) (days cfg) with
  | Raise e => Raise e
  | Return allocations =>
      let earnings := get_earnings analysis allocations (transactions cfg) (days cfg) in
      Return {| report_balances :=
                  {| chart_label := "Balance";
                     chart_data := pd.sum_axis1 allocations;
                     chart_labels := index allocations |};
                report_earnings :=
                  {| chart_label := "Earnings";
                     chart_data := snd <$> earnings;
                     chart_labels := fst <$> earnings |} |}
  end.

(** *** The spec's reading of the pipeline, for stating its claims *)

(** The first transaction of a list that carries a price. *)
Definition first_priced (trs : list (Transaction Currency)) : option (Price Currency) :=
  head (omap trs_price trs).

(** Spec section 4.2: (a) the first priced transaction, (b) the
    configured currency, (c) the provider's currency for the ticker. *)
Definition currency_by_priority (h : Holding) : option Currency :=
  match first_priced (transactions_by_holding cfg h) with
  | Some p => Some (currency p)
  | None =>
      match get_currency cfg h with
      | Some c => Some c
      | None => t ← ticker h; c ← yf_info t !! "currency"%string; Currency_getitem c
      end
  end.

(** No priced transaction, no configured currency, and a ticker that is
    absent or whose lookup fails. *)
Definition unresolvable (h : Holding) : Prop :=
  Forall (fun t => trs_price t = None) (transactions_by_holding cfg h) /\
  get_currency cfg h = None /\
  match ticker h with
  | None => True
  | Some t => (c ← yf_info t !! "currency"%string; Currency_getitem c) = None
  end.

(** The value the transactions give a day, from [init]: the amount of
    the last priced transaction dated that day. *)
Definition inferred_from (init : cell) (trs : list (Transaction Currency)) (d : date) : cell :=
  foldl (fun acc t =>
           match trs_price t with
           | Some p => if trs_date t =? d then Some (amount p) else acc
           | None => acc
           end) init trs.

Definition inferred_price (trs : list (Transaction Currency)) (d : date) : cell :=
  inferred_from None trs d.

(** Forward fill on labels: the value of the last row labelled at or
    before the day. *)
Definition last_at_or_before (t : date) (rs : list (date * cell)) : cell :=
  r ← last (filter (fun r => r.1 <= t) rs); r.2.

(** A series with one row per calendar day of [lo, hi], whose value on
    day [d] is [f d]. *)
Definition daily (lo hi : date) (f : date -> cell) (s : Series) : Prop :=
  pd.labels (rows s) = pd.date_range lo hi /\
  forall d, lo <= d <= hi -> pd.at_label (rows s) d = f d.

(** A series with a value on every calendar day of [lo, hi]. *)
Definition without_gaps (lo hi : date) (s : Series) : Prop :=
  pd.labels (rows s) = pd.date_range lo hi /\
  forall d, lo <= d <= hi -> is_Some (pd.at_label (rows s) d).

(** The price history built for an entry of the first holdings. *)
Definition builds (e : Entry) (s : Series) : Prop :=
  outcome (_get_holding_prices (entry_date e) (end_date cfg) (entry_holding e))
  = Return (Some s).

Definition stale_warning (e : Entry) : LogMsg :=
  Warning ("Most recent price is older than one week for "
           +:+ get_key (entry_holding e)).

(** A holding no source has a price for: no user-supplied series, no
    ticker or an empty provider series, no priced transaction. *)
Definition priceless (start end_ : date) (h : Holding) : Prop :=
  get_prices cfg h start end_ = None /\
  match ticker h with Some t => yf_history t start end_ = [] | None => True end /\
  Forall (fun t => trs_price t = None) (transactions_by_holding cfg h).

(** A table all of whose columns are aligned with the index and hold a
    value in every cell. *)
Definition no_empty_cell (df : DataFrame) : Prop :=
  Forall (fun c => length c.2 = length (index df) /\ Forall is_Some c.2) (columns df).

(** A result with its value wrapped in [Some]. *)
Definition returned {A} (r : result A) : result (option A) :=
  match r with
  | Return a => Return (Some a)
  | Raise e => Raise e
  end.

(** The row of a day in an index. *)
Fixpoint position (d : date) (idx : list date) : option nat :=
  match idx with
  | [] => None
  | x :: idx' => if x =? d then Some 0%nat else S <$> position d idx'
  end.

(** The price of a holding on a day, read from the price table by the
    name of the column and the label of the row. *)
Definition price_on (an : Analysis) (d : date) (key : string) : cell :=
  match List.find (fun c => String.eqb c.1 key) (columns (prices an)),
        position d (index (prices an)) with
  | Some c, Some i => default None (c.2 !! i)
  | _, _ => None
  end.

(** The value of one holding on a day: quantity held x price x rate of
    its currency; without a price or a currency there is none. *)
Definition holding_value (an : Analysis) (bals : list Balance) (d : date)
    (key : string) : option Q :=
  p ← price_on an d key;
  cur ← holdings_currencies an !! key;
  Some (quantity_on bals d key * p * conv_rates an cur)%Q.





(** A table with increasing days, distinct column names and columns as
    long as the index. *)
Definition well_formed (df : DataFrame) : Prop :=
  pd.increasing (index df) = true /\
  NoDup (columns df).*1 /\
  Forall (fun c => length c.2 = length (index df)) (columns df).

End Project.

(** ** Sample portfolios *)

Module Sample.

Inductive Cur := USD | EUR.

Definition Cur_getitem (c : string) : option Cur :=
  if String.eqb c "USD" then Some USD
  else if String.eqb c "EUR" then Some EUR
  else None.

Definition no_info : string -> gmap string string := fun _ => ∅.
Definition no_history : string -> date -> date -> list (date * cell) :=
  fun _ _ _ => [].

Definition holdingA : Holding :=
  {| get_key := "A"; ticker := None; quantity := 10 |}.
Definition holdingB : Holding :=
  {| get_key := "B"; ticker := Some "BBB"%string; quantity := 5 |}.

Definition buy (d : date) (q : Q) (a : Q) (c : Cur) : Transaction Cur :=
  {| trs_date := d; trs_quantity := q;
     trs_price := Some {| amount := a; currency := c |} |}.

Definition unpriced (d : date) (q : Q) : Transaction Cur :=
  {| trs_date := d; trs_quantity := q; trs_price := None |}.

Definition config (trs : list (Transaction Cur)) (cur : option Cur)
    (end_ : date) (ndays : Z) : Config Cur :=
  {| transactions := trs;
     transactions_by_holding := fun _ => trs;
     get_currency := fun _ => cur;
     get_prices := fun _ _ _ => None;
     end_date := end_;
     days := ndays |}.

(** A bought on day 0 at 100 USD, nothing afterwards; report up to day 2. *)
Definition one_quote : Config Cur := config [buy 0 10 100 USD] (Some EUR) 2 10.

(** A priced at 100 on day 0 and at 200 on day 10. *)
Definition two_quotes : Config Cur :=
  config [buy 0 10 100 USD; buy 10 0 200 USD] None 10 5.

(** A held without any price or currency. *)
Definition no_price : Config Cur := config [unpriced 0 10] None 1 10.

(** A bought on day 0 at 100 USD; report up to day 10. *)
Definition old_quote : Config Cur := config [buy 0 10 100 USD] (Some USD) 10 5.

Definition balanceA (d : date) : Balance :=
  {| bal_date := d; bal_holdings := [holdingA] |}.

Definition entryA (d : date) : Entry :=
  {| entry_date := d; entry_holding := holdingA |}.

(** The scenario of spec section 8: 10 A bought on day 1 at 10 USD, 5 B
    bought on day 8 at 20 EUR, one EUR being 1.1 USD. *)
Definition scenario : Config Cur :=
  {| transactions := [buy 1 10 10 USD; buy 8 5 20 EUR];
     transactions_by_holding :=
       fun h => if String.eqb (get_key h) "A"
                then [buy 1 10 10 USD] else [buy 8 5 20 EUR];
     get_currency := fun _ => None;
     get_prices := fun _ _ _ => None;
     end_date := 8;
     days := 10 |}.

Definition scenario_balances : list Balance :=
  [ {| bal_date := 1; bal_holdings := [holdingA] |};
    {| bal_date := 8; bal_holdings := [holdingA; holdingB] |} ].

Definition rates (c : Cur) : Q :=
  match c with USD => 1 | EUR => 11 # 10 end.

End Sample.

(** ** The attribute charts and the animated plot *)

(** The exceptions of [_get_attrs_report_data]. *)
Inductive ChartError :=
| IndexError (msg : string)
| AttributeError (msg : string).

(** A chart of an attribute: [{"type": "piechart", ...}] with its name,
    data and labels, or [{"type": "areachart", ...}] with its name, its
    datasets (label and data) and its labels (the days, before
    [strftime]). *)
Inductive AttrChart :=
| piechart (chart_name : string) (data : list cell) (labels : list string)
| areachart (chart_name : string) (datasets : list (string * list cell))
            (labels : list date).

(** [d[k] = v] on a dict in insertion order. *)
Definition dict_set {V} (k : string) (v : V) (d : list (string * V)) : list (string * V) :=
  if existsb (fun p => String.eqb p.1 k) d
  then (fun p => if String.eqb p.1 k then (k, v) else p) <$> d
  else d ++ [(k, v)].

(** [d[k]] on a dict in insertion order. *)
Definition dict_get {V} (k : string) (d : list (string * V)) : option V :=
  snd <$> List.find (fun p => String.eqb p.1 k) d.

(** [df.tail(1).values.tolist()[0]]: the cells of the last row; a table
    without rows has no element 0. *)
Definition last_row (df : DataFrame) : ChartError + list cell :=
  match index df with
  | [] => inl (IndexError "list index out of range")
  | _ :: _ => inr (pd.row df (length (index df) - 1))
  end.

(** [df[c].tolist()]: the cells of the column labelled [c]; with a label
    that is repeated [df[c]] is a table, which has no [tolist]. *)
Definition column_tolist (df : DataFrame) (c : string) : ChartError + list cell :=
  match filter (fun col => col.1 = c) (columns df) with
  | [col] => inr col.2
  | _ => inl (AttributeError "'DataFrame' object has no attribute 'tolist'")
  end.

(** [[{"label": c, "data": df[c].tolist()} for c in cs]]. *)
Fixpoint area_datasets (df : DataFrame) (cs : list string)
    : ChartError + list (string * list cell) :=
  match cs with
  | [] => inr []
  | c :: cs' =>
      match column_tolist df c with
      | inl e => inl e
      | inr data =>
          match area_datasets df cs' with
          | inl e => inl e
          | inr ds => inr ((c, data) :: ds)
          end
      end
  end.

Section Charts.

(** [analysis.get_attr_allocations] (inverno/analysis.py) and the weights
    it reads are taken as given. *)
Context {Weights : Type}.
Variable get_attr_allocations : DataFrame -> Weights -> DataFrame.

(** The loop of [_get_attrs_report_data] over [self._meta], a dict from
    attribute to weights, [reports] being the dict built so far. *)
Fixpoint attrs_loop (allocations : DataFrame) (meta : list (string * Weights))
    (reports : list (string * list AttrChart))
    : list LogMsg * (ChartError + list (string * list AttrChart)) :=
  match meta with
  | [] => ([], inr reports)
  | (attr, weights) :: meta' =>
      let msg := Info ("Generating report for attribute " +:+ attr) in
      let attr_alloc := get_attr_allocations allocations weights in
      match last_row attr_alloc with
      | inl e => ([msg], inl e)
      | inr last_alloc =>
          match area_datasets attr_alloc (columns attr_alloc).*1 with
          | inl e => ([msg], inl e)
          | inr ds =>
              let charts :=
                [piechart "Allocation" last_alloc (columns attr_alloc).*1;
                 areachart "Allocation history" ds (index attr_alloc)] in
              let '(l, r) := attrs_loop allocations meta' (dict_set attr charts reports) in
              (msg :: l, r)
          end
      end
  end.

Definition _get_attrs_report_data (_meta : list (string * Weights))
    (allocations : DataFrame)
    : list LogMsg * (ChartError + list (string * list AttrChart)) :=
  attrs_loop allocations _meta [].

End Charts.

(** The colours of [_gen_animated_plot], the number of frames and the
    first row that is shown. *)
Definition colors : list string :=
  ["red"; "green"; "blue"; "orange"; "black"; "violet"; "brown"; "yellow"; "purple"]%string.

Definition plot_frames (ndays : Z) (df : DataFrame) : Z :=
  Z.min ndays (Z.of_nat (length (index df))).

Definition plot_start (ndays : Z) (df : DataFrame) : Z :=
  Z.of_nat (length (index df)) - plot_frames ndays df.

(** [l[a:b]] for integers [a] and [b]: a negative bound counts from the
    end, and both are clipped to the list. *)
Definition py_slice {A} (a b : Z) (l : list A) : list A :=
  let n := Z.of_nat (length l) in
  let clip x := if x <? 0 then Z.max 0 (x + n) else Z.min x n in
  take (Z.to_nat (clip b - clip a)) (drop (Z.to_nat (clip a)) l).

(** What [update_frame(i)] plots: one line per column, the rows
    [start : start + i] of the index against those of the column, in the
    colour [colors[j % len(colors)]] of the column's position [j]. *)
Definition update_frame (ndays : Z) (df : DataFrame) (i : Z)
    : list (string * list date * list cell) :=
  let start := plot_start ndays df in
  imap (fun j c =>
          (default ""%string (colors !! (j mod length colors)%nat),
           py_slice start (start + i) (index df),
           py_slice start (start + i) c.2))
       (columns df).

(** [_gen_animated_plot]: the frames that [animator.save] writes,
    [update_frame] at 0, ..., frames - 1; without a frame there is
    nothing to write and the save raises. *)
Definition _gen_animated_plot (ndays : Z) (df : DataFrame)
    : ChartError + list (list (string * list date * list cell)) :=
  let frames := plot_frames ndays df in
  if frames <=? 0 then inl (IndexError "list index out of range")
  else inr ((fun i => update_frame ndays df (Z.of_nat i)) <$> seq 0 (Z.to_nat frames)).

(** ** Readings of the code, for stating further properties *)

(** The two charts of an attribute whose table is [t], the pie chart
    showing the last cell of each column. *)
Definition attr_charts (t : DataFrame) : list AttrChart :=
  [piechart "Allocation" ((fun c => default None (last c.2)) <$> columns t) (columns t).*1;
   areachart "Allocation history" (columns t) (index t)].

(** A table with at least one row, distinct labels and aligned columns. *)
Definition chartable (t : DataFrame) : Prop :=
  index t <> [] /\ NoDup (columns t).*1 /\
  Forall (fun c => length c.2 = length (index t)) (columns t).

(** The holdings of the balances, in the order the loops of
    [_get_first_holdings] visit them, each with the date of its balance. *)
Definition visited (bals : list Balance) : list (date * Holding) :=
  bals ≫= fun b => (fun h => (bal_date b, h)) <$> bal_holdings b.

(** The body of the inner loop of [_get_first_holdings]. *)
Definition first_holdings_step (holdings : list (string * Entry)) (p : date * Holding)
    : list (string * Entry) :=
  if key_in (get_key p.2) holdings then holdings
  else holdings ++ [(get_key p.2, {| entry_date := p.1; entry_holding := p.2 |})].

(** ** More sample data *)

Module SampleMore.

(** A user-supplied price table that answers with a series without rows. *)
Definition empty_user : Config Sample.Cur :=
  {| transactions := [];
     transactions_by_holding := fun _ => [Sample.buy 0 10 100 Sample.USD];
     get_currency := fun _ => None;
     get_prices := fun _ _ _ => Some {| name := "A"; rows := [] |};
     end_date := 2;
     days := 10 |}.

(** A bought on day 0 with a priced transaction dated the day before. *)
Definition early : Config Sample.Cur :=
  Sample.config [Sample.buy (-1) 10 100 Sample.USD] None 2 10.

(** Rows for days 0 and 3 only, the second without a value, and the
    same series day by day. *)
Definition gapped : Series :=
  {| name := "A"; rows := [(0, Some 1%Q); (3, None)] |}.

Definition gapped_daily : Series :=
  {| name := "A";
     rows := [(0, Some 1%Q); (1, Some 1%Q); (2, Some 1%Q); (3, None)] |}.

(** The series built for A under [Sample.two_quotes]. *)
Definition two_quotes_series : Series :=
  {| name := "A";
     rows := (0, Some 100%Q) :: pd.empty_series (pd.date_range 1 9) ++ [(10, Some 200%Q)] |}.


(** Three days of two holdings. *)
Definition table : DataFrame :=
  {| index := [1; 2; 3];
     columns := [("A"%string, [Some 1%Q; Some 2%Q; Some 3%Q]);
                 ("B"%string, [Some 4%Q; None; Some 6%Q])] |}.

Definition no_rows : DataFrame := {| index := []; columns := [] |}.



(** The price of A falls from 200 on day 0 to 100 on day 1. *)
Definition falling : Config Sample.Cur :=
  Sample.config [Sample.buy 0 10 200 Sample.USD; Sample.buy 1 0 100 Sample.USD] None 1 10.

(** Attribute allocations: the table itself for [true], no row for
    [false]. *)
Definition attr_allocations (allocations : DataFrame) (w : bool) : DataFrame :=
  if w then allocations else no_rows.

End SampleMore.

(** * Properties *)

(** ** The effect layer *)

Lemma outcome_bind_return {A B} (m : M A) (f : A -> M B) a :
  outcome m = Return a -> outcome (bind m f) = outcome (f a).
Proof.
  destruct m as [l r]; simpl; intros ->. simpl. by destruct (f a).
Qed.

Lemma outcome_bind_raise {A B} (m : M A) (f : A -> M B) e :
  outcome m = Raise e -> outcome (bind m f) = Raise e.
Proof. destruct m as [l r]; simpl; by intros ->. Qed.

Lemma logs_bind {A B} (m : M A) (f : A -> M B) :
  logs (bind m f) =
  logs m ++ match outcome m with Return a => logs (f a) | Raise _ => [] end.
Proof.
  destruct m as [l [a|e]]; simpl.
  - by destruct (f a).
  - by rewrite app_nil_r.
Qed.

Lemma outcome_bind_inv {A B} (m : M A) (f : A -> M B) b :
  outcome (bind m f) = Return b ->
  exists a, outcome m = Return a /\ outcome (f a) = Return b.
Proof.
  destruct m as [l [a|e]]; simpl; [|done].
  destruct (f a) as [l2 r] eqn:E; simpl. intros ->. exists a. by rewrite E.
Qed.

Lemma for_each_app {A S} (body : A -> S -> M S) xs ys s :
  outcome (for_each body (xs ++ ys) s) =
  match outcome (for_each body xs s) with
  | Return s' => outcome (for_each body ys s')
  | Raise e => Raise e
  end.
Proof.
  revert s. induction xs as [|x xs IH]; intros s; simpl.
  - by destruct (for_each body ys s).
  - destruct (body x s) as [l [s1|e]] eqn:E; simpl; [|done].
    specialize (IH s1).
    destruct (for_each body (xs ++ ys) s1) as [l2 r2].
    destruct (for_each body xs s1) as [l3 [s3|e3]]; simpl in *; done.
Qed.

(** ** First holdings: one entry per key, under its own key *)

Definition keyed (holdings : list (string * Entry)) : Prop :=
  NoDup holdings.*1 /\
  Forall (fun p => p.1 = get_key (entry_holding p.2)) holdings.

Lemma key_in_spec k holdings : key_in k holdings = true <-> k ∈ holdings.*1.
Proof.
  unfold key_in. rewrite existsb_exists. split.
  - intros [p [Hin Heq]]. apply String.eqb_eq in Heq. subst k.
    apply list_elem_of_fmap. exists p. split; [done|]. by apply list_elem_of_In.
  - intros [p [-> Hin]]%list_elem_of_fmap. exists p.
    split; [by apply list_elem_of_In | apply String.eqb_refl].
Qed.

Lemma first_holdings_keyed (bals : list Balance) : keyed (_get_first_holdings bals).
Proof.
  unfold _get_first_holdings.
  match goal with
  | |- keyed (foldl ?f [] bals) =>
      enough (H : forall acc, keyed acc -> keyed (foldl f acc bals))
        by (apply H; split; constructor)
  end.
  induction bals as [|b bals IH]; intros acc Hacc; simpl; [done|].
  apply IH. clear IH. revert acc Hacc.
  induction (bal_holdings b) as [|h hs IHh]; intros acc Hacc; simpl; [done|].
  apply IHh. destruct (key_in (get_key h) acc) eqn:E; [done|].
  destruct Hacc as [Hnd Hk]. split.
  - rewrite fmap_app. simpl. apply NoDup_app. split; [done|]. split.
    + intros x Hx ->%list_elem_of_singleton.
      apply key_in_spec in Hx. congruence.
    + apply NoDup_singleton.
  - apply Forall_app. split; [done|]. by constructor.
Qed.

(** ** Currency resolution *)

Section Currencies.

Context {Currency : Type}.
Variable Currency_getitem : string -> option Currency.
Variable yf_info : string -> gmap string string.
Variable yf_history : string -> date -> date -> list (date * cell).
Variable cfg : Config Currency.

Local Abbreviation resolve := (resolve_currency Currency_getitem yf_info cfg).
Local Abbreviation priority := (currency_by_priority Currency_getitem yf_info cfg).
Local Abbreviation ekey := (fun e : Entry => get_key (entry_holding e)).

Lemma try_transactions_spec key (trs : list (Transaction Currency)) (m : gmap string Currency) :
  try_transactions key trs m =
  match first_priced trs with
  | Some p => <[key := currency p]> m
  | None => m
  end.
Proof.
  unfold first_priced. induction trs as [|t trs IH]; simpl; [done|].
  destruct (trs_price t); simpl; [done|]. apply IH.
Qed.

Lemma resolve_currency_spec (e : Entry) (m : gmap string Currency) :
  m !! ekey e = None ->
  resolve e m =
  ([Info ("Getting currency for " +:+ ekey e)],
   match priority (entry_holding e) with
   | Some c => Return (<[ekey e := c]> m)
   | None => Raise (unresolved (entry_holding e))
   end).
Proof.
  intros Hfresh. unfold resolve_currency, currency_by_priority.
  rewrite try_transactions_spec.
  destruct (first_priced _) as [p|]; simpl.
  - rewrite bool_decide_eq_true_2; [done|]. rewrite lookup_insert_eq. by eexists.
  - rewrite bool_decide_eq_false_2; [|rewrite Hfresh; by intros [? ?]].
    destruct (get_currency cfg _); simpl; [done|].
    destruct (ticker _) as [t|]; simpl; [|done].
    unfold yahoo_currency.
    destruct (yf_info t !! _) as [c|]; simpl; [|done].
    by destruct (Currency_getitem c).
Qed.

Lemma unresolvable_priority (h : Holding) :
  unresolvable Currency_getitem yf_info cfg h <-> priority h = None.
Proof.
  unfold unresolvable, currency_by_priority, first_priced. split.
  - intros (Htrs & -> & Ht).
    assert (omap trs_price (transactions_by_holding cfg h) = []) as ->.
    { induction Htrs as [|t l Ht' _ IH]; simpl; [done|]. by rewrite Ht'. }
    simpl. by destruct (ticker h).
  - intros H.
    destruct (head _) eqn:Hh; [done|].
    destruct (get_currency cfg h); [done|]. split; [|split; [done|]].
    + apply head_None in Hh. revert Hh.
      induction (transactions_by_holding cfg h) as [|t l IH]; simpl; [constructor|].
      destruct (trs_price t) eqn:Et; [done|]. intros Hl. constructor; auto.
    + by destruct (ticker h).
Qed.

(** The loop over entries with distinct keys that all resolve. *)
Lemma get_currencies_loop (es : list Entry) (m0 : gmap string Currency) :
  NoDup (ekey <$> es) ->
  Forall (fun e => m0 !! ekey e = None) es ->
  Forall (fun e => is_Some (priority (entry_holding e))) es ->
  exists m,
    outcome (for_each resolve es m0) = Return m /\
    (forall e, e ∈ es -> m !! ekey e = priority (entry_holding e)) /\
    (forall k, k ∉ ekey <$> es -> m !! k = m0 !! k).
Proof.
  revert m0. induction es as [|e es IH]; intros m0 Hnd Hfresh Hres; simpl.
  - exists m0. split; [done|]. split; [|done]. intros e []%elem_of_nil.
  - apply NoDup_cons in Hnd as [Hnotin Hnd].
    apply Forall_cons in Hfresh as [Hf Hfresh].
    apply Forall_cons in Hres as [[c Hc] Hres].
    rewrite (outcome_bind_return _ _ (<[ekey e := c]> m0));
      [|by rewrite resolve_currency_spec, Hc].
    destruct (IH (<[ekey e := c]> m0)) as (m & Hm & Hin & Hout); [done| |done|].
    { apply Forall_forall. intros e' He'.
      rewrite lookup_insert_ne.
      - by apply (proj1 (Forall_forall _ _) Hfresh).
      - intros Heq. apply Hnotin. apply list_elem_of_fmap. by exists e'. }
    exists m. split; [done|]. split.
    + intros e' [->|He']%elem_of_cons; [|by apply Hin].
      rewrite Hout; [|done]. by rewrite lookup_insert_eq.
    + intros k Hk. apply not_elem_of_cons in Hk as [Hne Hk].
      rewrite Hout; [|done]. by rewrite lookup_insert_ne.
Qed.

(** The loop stops at the first entry that does not resolve. *)
Lemma get_currencies_raise (pre post : list Entry) (e : Entry) :
  NoDup (ekey <$> pre ++ e :: post) ->
  Forall (fun e => is_Some (priority (entry_holding e))) pre ->
  priority (entry_holding e) = None ->
  outcome (for_each resolve (pre ++ e :: post) ∅) = Raise (unresolved (entry_holding e)).
Proof.
  intros Hnd Hpre He. rewrite for_each_app.
  rewrite fmap_app in Hnd. apply NoDup_app in Hnd as (Hndpre & Hdisj & Hnd2).
  destruct (get_currencies_loop pre ∅) as (m & -> & _ & Hout); [done| |done|].
  { apply Forall_forall. intros; apply lookup_empty. }
  simpl. apply outcome_bind_raise.
  rewrite resolve_currency_spec, He; [done|].
  rewrite Hout; [apply lookup_empty|].
  intros Hin. apply (Hdisj _ Hin). rewrite fmap_cons. apply elem_of_cons. by left.
Qed.

Lemma first_unresolved (es : list Entry) :
  Exists (fun e => priority (entry_holding e) = None) es ->
  exists pre e post,
    es = pre ++ e :: post /\
    Forall (fun e => is_Some (priority (entry_holding e))) pre /\
    priority (entry_holding e) = None.
Proof.
  induction es as [|x es IH]; intros Hex; [by apply Exists_nil in Hex|].
  destruct (priority (entry_holding x)) as [c|] eqn:Hx.
  - apply Exists_cons in Hex as [Hex|Hex]; [congruence|].
    destruct (IH Hex) as (pre & e & post & -> & Hpre & He).
    exists (x :: pre), e, post. split; [done|]. split; [|done].
    constructor; [by eexists | done].
  - exists [], x, es. by repeat split.
Qed.

Lemma keyed_entries (fh : list (string * Entry)) :
  keyed fh -> ekey <$> fh.*2 = fh.*1.
Proof.
  intros [_ Hk]. induction Hk as [|p l Hp _ IH]; [done|].
  rewrite !fmap_cons. by rewrite IH, Hp.
Qed.

(** C2: the currency of every holding is the one of the first source
    that answers, in the order (a) first priced transaction, (b)
    configured currency, (c) provider's currency for the ticker; a
    priced transaction in X wins over a configured Y. *)
Theorem currency_fallback_order (bals : list Balance) :
  Forall (fun p => is_Some (priority (entry_holding p.2))) (_get_first_holdings bals) ->
  exists m,
    outcome (_get_currencies Currency_getitem yf_info cfg (_get_first_holdings bals))
      = Return m /\
    forall k e, (k, e) ∈ _get_first_holdings bals ->
      m !! k = priority (entry_holding e) /\
      forall p y,
        first_priced (transactions_by_holding cfg (entry_holding e)) = Some p ->
        get_currency cfg (entry_holding e) = Some y ->
        m !! k = Some (currency p).
Proof.
  intros Hres. pose proof (first_holdings_keyed bals) as Hkeyed.
  set (fh := _get_first_holdings bals) in *.
  destruct (get_currencies_loop (fh.*2) ∅) as (m & Hm & Hin & _).
  - rewrite keyed_entries by done. apply Hkeyed.
  - apply Forall_forall. intros; apply lookup_empty.
  - apply Forall_fmap. exact Hres.
  - exists m. split; [exact Hm|]. intros k e Hke.
    assert (Hk : k = ekey e).
    { destruct Hkeyed as [_ Hk]. by apply (proj1 (Forall_forall _ _) Hk (k, e)). }
    assert (He : m !! k = priority (entry_holding e)).
    { rewrite Hk. apply Hin. apply list_elem_of_fmap. by exists (k, e). }
    split; [done|]. intros p y Hp _. rewrite He.
    unfold currency_by_priority. by rewrite Hp.
Qed.

(** C3: a holding without a priced transaction, a configured currency
    or a successful ticker lookup makes currency resolution raise, so
    that no project is built; the error names the first such holding,
    hence this holding when the ones before it resolve. *)
Theorem unresolved_currency_aborts (bals : list Balance) (k : string) (e : Entry) :
  (k, e) ∈ _get_first_holdings bals ->
  unresolvable Currency_getitem yf_info cfg (entry_holding e) ->
  (exists e', e' ∈ (_get_first_holdings bals).*2 /\
     unresolvable Currency_getitem yf_info cfg (entry_holding e') /\
     outcome (__init__ Currency_getitem yf_info yf_history cfg bals)
       = Raise (ValueError ("Couldn't determine currency for " +:+ ekey e'))) /\
  (forall pre post,
     _get_first_holdings bals = pre ++ (k, e) :: post ->
     Forall (fun p => is_Some (priority (entry_holding p.2))) pre ->
     outcome (__init__ Currency_getitem yf_info yf_history cfg bals)
       = Raise (ValueError ("Couldn't determine currency for " +:+ k))).
Proof.
  intros Hke Hun. pose proof (first_holdings_keyed bals) as Hkeyed.
  unfold __init__, _get_currencies.
  set (fh := _get_first_holdings bals) in *.
  assert (Hnd : NoDup (ekey <$> fh.*2)) by (rewrite keyed_entries by done; apply Hkeyed).
  split.
  - destruct (first_unresolved (fh.*2)) as (pre & e' & post & Heq & Hpre & He').
    { apply Exists_exists. exists e. split.
      - apply list_elem_of_fmap. by exists (k, e).
      - by apply unresolvable_priority. }
    exists e'. split; [rewrite Heq; apply elem_of_app; right; by left|].
    split; [by apply unresolvable_priority|].
    apply outcome_bind_raise. rewrite Heq in Hnd |- *.
    by apply get_currencies_raise.
  - intros pre post Heq Hpre.
    assert (Hk : k = ekey e).
    { destruct Hkeyed as [_ Hk]. by apply (proj1 (Forall_forall _ _) Hk (k, e)). }
    apply outcome_bind_raise. rewrite Heq in Hnd |- *.
    rewrite fmap_app, fmap_cons in Hnd |- *. simpl. rewrite Hk.
    apply (get_currencies_raise (pre.*2) (post.*2) e); [done| |].
    + by apply Forall_fmap.
    + by apply unresolvable_priority.
Qed.

End Currencies.

(** ** Daily ranges and reindexing *)

Lemma date_range_cons (a b : date) :
  a <= b -> pd.date_range a b = a :: pd.date_range (a + 1) b.
Proof.
  intros Hab. unfold pd.date_range.
  replace (Z.to_nat (b - a + 1)) with (S (Z.to_nat (b - (a + 1) + 1))) by lia.
  rewrite <- cons_seq. rewrite fmap_cons. f_equal; [lia|].
  rewrite <- fmap_S_seq, <- list_fmap_compose.
  apply list_fmap_ext. intros _ i _. simpl. lia.
Qed.

Lemma date_range_nil (a b : date) : b < a -> pd.date_range a b = [].
Proof. intros H. unfold pd.date_range. by replace (Z.to_nat (b - a + 1)) with 0%nat by lia. Qed.

Lemma date_range_length (a b : date) :
  length (pd.date_range a b) = Z.to_nat (b - a + 1).
Proof. unfold pd.date_range. by rewrite length_fmap, length_seq. Qed.

Lemma elem_of_date_range (a b d : date) : d ∈ pd.date_range a b <-> a <= d <= b.
Proof.
  unfold pd.date_range. rewrite list_elem_of_fmap. split.
  - intros (i & -> & Hi). apply elem_of_seq in Hi. lia.
  - intros Hd. exists (Z.to_nat (d - a)). split; [lia|]. apply elem_of_seq. lia.
Qed.

Lemma increasing_cons (d : date) (l : list date) :
  pd.increasing (d :: l) = true <-> Forall (fun x => d < x) l /\ pd.increasing l = true.
Proof.
  revert d. induction l as [|x l IH]; intros d.
  - simpl. split; [by split | done].
  - change (pd.increasing (d :: x :: l)) with ((d <? x) && pd.increasing (x :: l)).
    rewrite andb_true_iff, Z.ltb_lt. split.
    + intros [Hdx Hl]. split; [|done]. constructor; [done|].
      apply IH in Hl as [Hx _]. eapply Forall_impl; [exact Hx|]. simpl. lia.
    + intros [Hall Hl]. by apply Forall_cons in Hall as [? _].
Qed.

Lemma has_duplicates_NoDup (l : list date) : pd.has_duplicates l = false <-> NoDup l.
Proof.
  induction l as [|x l IH]; simpl; [split; [constructor|done]|].
  rewrite orb_false_iff, NoDup_cons, IH. split; intros [Hx Hl]; split; try done.
  - intros Hin. apply not_true_iff_false in Hx. apply Hx, existsb_exists.
    exists x. split; [by apply list_elem_of_In|apply Z.eqb_refl].
  - apply not_true_iff_false. intros (y & Hy & Heq)%existsb_exists.
    apply Z.eqb_eq in Heq as <-. by apply Hx, list_elem_of_In.
Qed.

Lemma increasing_no_duplicates (l : list date) :
  pd.increasing l = true -> pd.has_duplicates l = false.
Proof.
  intros Hinc. apply has_duplicates_NoDup.
  induction l as [|x l IH]; [constructor|].
  apply increasing_cons in Hinc as [Hall Hinc]. constructor; [|by apply IH].
  intros Hx. apply (proj1 (Forall_forall _ _) Hall) in Hx. lia.
Qed.

Lemma increasing_date_range (a b : date) : pd.increasing (pd.date_range a b) = true.
Proof.
  destruct (decide (a <= b)) as [Hab|Hab]; [|by rewrite date_range_nil by lia].
  remember (Z.to_nat (b - a)) as n eqn:Hn. revert a Hab Hn.
  induction n as [|n IH]; intros a Hab Hn; rewrite date_range_cons by done.
  - by rewrite date_range_nil by lia.
  - apply increasing_cons. split; [|apply IH; lia].
    apply Forall_forall. intros x Hx%elem_of_date_range. lia.
Qed.

Lemma index_min_increasing (d : date) (ds : list date) :
  pd.increasing (d :: ds) = true -> pd.index_min d ds = d.
Proof.
  intros [Hall _]%increasing_cons. unfold pd.index_min.
  induction Hall as [|x l Hx _ IH]; simpl; [done|]. rewrite IH. lia.
Qed.

Lemma index_max_increasing (d : date) (ds : list date) :
  pd.increasing (d :: ds) = true -> pd.index_max d ds = default d (last ds).
Proof.
  unfold pd.index_max. revert d. induction ds as [|x ds IH]; intros d Hinc; [done|].
  apply increasing_cons in Hinc as [Hall Hinc].
  apply Forall_cons in Hall as [Hdx _].
  rewrite last_cons. simpl.
  assert (Hshift : forall l, Z.max x (foldr Z.max d l) = foldr Z.max x l).
  { induction l as [|y l IHl]; simpl; lia. }
  rewrite Hshift, (IH x Hinc). by destruct (last ds).
Qed.

Lemma labels_fmap (f : date -> cell) (idx : list date) :
  pd.labels ((fun d => (d, f d)) <$> idx) = idx.
Proof.
  unfold pd.labels. rewrite <- list_fmap_compose.
  rewrite <- (list_fmap_id idx) at 2. by apply list_fmap_ext.
Qed.

(** Under pad, a label of an increasing index reads its own row. *)
Lemma pad_increasing_at (t : date) (v acc : cell) (pre post : list (date * cell)) :
  pd.increasing (pd.labels (pre ++ (t, v) :: post)) = true ->
  pd.pad_increasing t (pre ++ (t, v) :: post) acc = v.
Proof.
  revert acc. induction pre as [|[d0 v0] pre IH]; intros acc Hinc.
  - simpl. rewrite Z.leb_refl.
    apply increasing_cons in Hinc as [Hall _].
    destruct post as [|[d1 v1] post]; simpl; [done|].
    apply Forall_cons in Hall as [Hlt _]. simpl in Hlt.
    by rewrite (proj2 (Z.leb_gt _ _)) by lia.
  - change (pd.labels (((d0, v0) :: pre) ++ (t, v) :: post))
      with (d0 :: pd.labels (pre ++ (t, v) :: post)) in Hinc.
    apply increasing_cons in Hinc as [Hall Hinc].
    assert (d0 < t).
    { apply (proj1 (Forall_forall _ _) Hall). unfold pd.labels.
      rewrite fmap_app, fmap_cons. apply elem_of_app. right. by left. }
    simpl. rewrite (proj2 (Z.leb_le _ _)) by lia. by apply IH.
Qed.

(** Under pad, any day reads the last row labelled at or before it. *)
Lemma pad_increasing_spec (t : date) (rs : list (date * cell)) (acc : cell) :
  pd.increasing (pd.labels rs) = true ->
  pd.pad_increasing t rs acc =
  match last (filter (fun r => r.1 <= t) rs) with
  | Some r => r.2
  | None => acc
  end.
Proof.
  revert acc. induction rs as [|[d v] rs IH]; intros acc Hinc; [done|].
  change (pd.labels ((d, v) :: rs)) with (d :: pd.labels rs) in Hinc.
  apply increasing_cons in Hinc as [Hall Hinc]. simpl.
  destruct (decide (d <= t)) as [Hd|Hd].
  - rewrite (proj2 (Z.leb_le _ _)) by done.
    rewrite filter_cons_True by done. rewrite last_cons, IH by done.
    by destruct (last _).
  - rewrite (proj2 (Z.leb_gt _ _)) by lia.
    rewrite filter_cons_False by done.
    destruct (last _) as [r|] eqn:Hl; [|done]. exfalso.
    apply last_Some_elem_of, list_elem_of_filter in Hl as [Hrt Hr].
    simpl in Hrt. assert (d < r.1); [|lia].
    apply (proj1 (Forall_forall _ _) Hall). unfold pd.labels.
    apply list_elem_of_fmap. by exists r.
Qed.

Lemma last_date_range (a b : date) : a <= b -> last (pd.date_range a b) = Some b.
Proof.
  intros Hab. rewrite last_lookup, date_range_length. unfold pd.date_range.
  rewrite list_lookup_fmap, lookup_seq_lt by lia. simpl. f_equal. lia.
Qed.

Lemma reindex_increasing (s : Series) (d : date) (ds : list date) :
  pd.labels (rows s) = d :: ds ->
  pd.increasing (d :: ds) = true ->
  _reindex s =
  Return {| name := name s;
            rows := (fun t => (t, last_at_or_before t (rows s)))
                      <$> pd.date_range d (default d (last ds)) |}.
Proof.
  intros Hl Hinc. unfold _reindex, pd.reindex_pad.
  rewrite Hl, (increasing_no_duplicates _ Hinc), Hinc.
  rewrite index_min_increasing, index_max_increasing by done.
  do 2 f_equal. apply list_fmap_ext. intros _ t _. f_equal.
  rewrite pad_increasing_spec by (by rewrite Hl).
  unfold last_at_or_before. by destruct (last _).
Qed.

(** A series that already has one row per day of a range is left as it
    is by [_reindex], empty values included. *)
Lemma reindex_daily (n : string) (f : date -> cell) (a b : date) :
  a <= b ->
  _reindex {| name := n; rows := (fun d => (d, f d)) <$> pd.date_range a b |} =
  Return {| name := n; rows := (fun d => (d, f d)) <$> pd.date_range a b |}.
Proof.
  intros Hab. unfold _reindex, pd.reindex_pad. simpl.
  rewrite labels_fmap, (increasing_no_duplicates _ (increasing_date_range a b)),
    increasing_date_range.
  rewrite date_range_cons by done.
  rewrite index_min_increasing, index_max_increasing
    by (rewrite <- date_range_cons by done; apply increasing_date_range).
  assert (default a (last (pd.date_range (a + 1) b)) = b) as ->.
  { destruct (decide (a + 1 <= b)).
    - by rewrite last_date_range.
    - rewrite date_range_nil by lia. simpl. lia. }
  rewrite <- date_range_cons by done.
  do 2 f_equal. apply list_fmap_ext. intros i t Ht. f_equal.
  apply list_elem_of_lookup_2, list_elem_of_split in Ht as (l1 & l2 & Heq).
  assert (Hinc : pd.increasing
            (pd.labels ((fun d => (d, f d)) <$> l1 ++ t :: l2)) = true)
    by (rewrite labels_fmap, <- Heq; apply increasing_date_range).
  rewrite fmap_app, fmap_cons in Hinc.
  rewrite Heq, fmap_app, fmap_cons. by apply pad_increasing_at.
Qed.

Lemma setitem_in_range (f : date -> cell) (idx : list date) (d0 : date) (v : Q) :
  d0 ∈ idx ->
  pd.setitem ((fun d => (d, f d)) <$> idx) d0 v =
  (fun d => (d, if d =? d0 then Some v else f d)) <$> idx.
Proof.
  intros Hin. unfold pd.setitem.
  assert (existsb (fun r : date * cell => r.1 =? d0) ((fun d => (d, f d)) <$> idx) = true) as ->.
  { apply existsb_exists. exists (d0, f d0). split; [|apply Z.eqb_refl].
    apply list_elem_of_In, list_elem_of_fmap. by exists d0. }
  rewrite <- list_fmap_compose. apply list_fmap_ext. intros _ d _. simpl.
  by destruct (d =? d0).
Qed.

Section Prices.

Context {Currency : Type}.
Variable yf_history : string -> date -> date -> list (date * cell).
Variable cfg : Config Currency.

Local Abbreviation holding_prices := (_get_holding_prices yf_history cfg).

(** Priced transactions dated inside the range only fill rows that
    exist. *)
Lemma set_transaction_prices_in_range (trs : list (Transaction Currency))
    (f : date -> cell) (idx : list date) :
  Forall (fun t => is_Some (trs_price t) -> trs_date t ∈ idx) trs ->
  set_transaction_prices trs ((fun d => (d, f d)) <$> idx) =
  (fun d => (d, inferred_from (f d) trs d)) <$> idx.
Proof.
  unfold set_transaction_prices, inferred_from.
  intros Hall. revert f. induction Hall as [|t trs Ht _ IH]; intros f; [done|].
  simpl. destruct (trs_price t) as [p|]; [|apply IH].
  rewrite setitem_in_range by (apply Ht; by eexists).
  rewrite IH. apply list_fmap_ext. intros _ d _. simpl.
  by rewrite (Z.eqb_sym d).
Qed.

Lemma from_transactions_daily (start end_ : date) (h : Holding) :
  start <= end_ ->
  Forall (fun t => is_Some (trs_price t) -> start <= trs_date t <= end_)
         (transactions_by_holding cfg h) ->
  outcome (from_transactions cfg start end_ h) =
  Return (Some {| name := get_key h;
                  rows := (fun d => (d, inferred_price (transactions_by_holding cfg h) d))
                            <$> pd.date_range start end_ |}).
Proof.
  intros Hse Hin. unfold from_transactions, pd.empty_series.
  rewrite set_transaction_prices_in_range.
  - unfold lift. by rewrite reindex_daily.
  - eapply Forall_impl; [exact Hin|]. intros t Ht Hp. apply elem_of_date_range. auto.
Qed.

Lemma holding_prices_user (start end_ : date) (h : Holding) (p : Series) :
  get_prices cfg h start end_ = Some p ->
  outcome (holding_prices start end_ h) = returned (_reindex p).
Proof.
  unfold _get_holding_prices. intros ->. unfold lift. simpl. by destruct (_reindex p).
Qed.

Lemma holding_prices_yahoo (start end_ : date) (h : Holding) (t : string) :
  get_prices cfg h start end_ = None ->
  ticker h = Some t -> yf_history t start end_ <> [] ->
  outcome (holding_prices start end_ h) =
  returned (_reindex {| name := get_key h; rows := yf_history t start end_ |}).
Proof.
  unfold _get_holding_prices. intros -> -> Hne. simpl.
  destruct (yf_history t start end_) as [|r rs] eqn:E; [done|]. simpl.
  unfold lift. by destruct (_reindex _).
Qed.

Lemma holding_prices_inferred (start end_ : date) (h : Holding) :
  get_prices cfg h start end_ = None ->
  match ticker h with Some t => yf_history t start end_ = [] | None => True end ->
  outcome (holding_prices start end_ h) = outcome (from_transactions cfg start end_ h).
Proof.
  unfold _get_holding_prices. intros -> Ht.
  destruct (ticker h) as [t|]; [by rewrite Ht|done].
Qed.

(** C5: the user-supplied table is used whenever it answers; otherwise
    the provider's series when the holding has a ticker and the series
    has at least one point; otherwise the prices inferred from the
    transactions, where each priced transaction sets the value of its
    day and every other day stays empty. *)
Theorem price_source_priority (start end_ : date) (h : Holding) :
  (forall p, get_prices cfg h start end_ = Some p ->
     outcome (holding_prices start end_ h) = returned (_reindex p)) /\
  (forall t, get_prices cfg h start end_ = None ->
     ticker h = Some t -> yf_history t start end_ <> [] ->
     outcome (holding_prices start end_ h) =
     returned (_reindex {| name := get_key h; rows := yf_history t start end_ |})) /\
  (get_prices cfg h start end_ = None ->
   match ticker h with Some t => yf_history t start end_ = [] | None => True end ->
   start <= end_ ->
   Forall (fun t => is_Some (trs_price t) -> start <= trs_date t <= end_)
          (transactions_by_holding cfg h) ->
   outcome (holding_prices start end_ h) =
   Return (Some {| name := get_key h;
                   rows := (fun d => (d, inferred_price (transactions_by_holding cfg h) d))
                             <$> pd.date_range start end_ |})).
Proof.
  split; [|split].
  - apply holding_prices_user.
  - apply holding_prices_yahoo.
  - intros Hp Ht Hse Hin. rewrite holding_prices_inferred by done.
    by apply from_transactions_daily.
Qed.

Lemma daily_fmap (n : string) (lo hi : date) (f : date -> cell) :
  daily lo hi f {| name := n; rows := (fun d => (d, f d)) <$> pd.date_range lo hi |}.
Proof.
  split; simpl; [apply labels_fmap|].
  intros d Hd%elem_of_date_range. unfold pd.at_label.
  induction (pd.date_range lo hi) as [|x l IH]; [by apply elem_of_nil in Hd|].
  simpl. destruct (x =? d) eqn:E; [by apply Z.eqb_eq in E as ->|].
  apply IH. apply elem_of_cons in Hd as [->|Hd]; [|done].
  by rewrite Z.eqb_refl in E.
Qed.

(** C4, as the code has it: the series has one row per calendar day
    between the first and the last label of the source that was
    selected, which is [start, end] for prices inferred from
    transactions.  A day the source has no row for reads the last row
    before it; a day the source has a row for keeps that row's value,
    so that with inferred prices every day without a priced transaction
    stays empty. *)
Theorem price_history_daily (start end_ : date) (h : Holding) :
  (forall p d ds,
     get_prices cfg h start end_ = Some p ->
     pd.labels (rows p) = d :: ds -> pd.increasing (d :: ds) = true ->
     exists s, outcome (holding_prices start end_ h) = Return (Some s) /\
       daily d (default d (last ds)) (fun t => last_at_or_before t (rows p)) s) /\
  (forall t d ds,
     get_prices cfg h start end_ = None -> ticker h = Some t ->
     pd.labels (yf_history t start end_) = d :: ds -> pd.increasing (d :: ds) = true ->
     exists s, outcome (holding_prices start end_ h) = Return (Some s) /\
       daily d (default d (last ds))
             (fun t' => last_at_or_before t' (yf_history t start end_)) s) /\
  (get_prices cfg h start end_ = None ->
   match ticker h with Some t => yf_history t start end_ = [] | None => True end ->
   start <= end_ ->
   Forall (fun t => is_Some (trs_price t) -> start <= trs_date t <= end_)
          (transactions_by_holding cfg h) ->
   exists s, outcome (holding_prices start end_ h) = Return (Some s) /\
     daily start end_ (inferred_price (transactions_by_holding cfg h)) s).
Proof.
  split; [|split].
  - intros p d ds Hp Hl Hinc. rewrite (holding_prices_user _ _ _ p Hp).
    rewrite (reindex_increasing p d ds Hl Hinc). simpl.
    eexists. split; [done|]. apply daily_fmap.
  - intros t d ds Hp Ht Hl Hinc. rewrite (holding_prices_yahoo _ _ _ t Hp Ht).
    + rewrite (reindex_increasing
                 {| name := get_key h; rows := yf_history t start end_ |} d ds Hl Hinc).
      simpl.
      eexists. split; [done|]. apply (daily_fmap (get_key h)).
    + intros E. by rewrite E in Hl.
  - intros Hp Ht Hse Hin. rewrite holding_prices_inferred by done.
    rewrite from_transactions_daily by done.
    eexists. split; [done|]. apply daily_fmap.
Qed.

End Prices.

(** C4 as stated fails: A has a quote on day 0 and the report runs to day
    2, yet days 1 and 2 of its series hold no value. *)
Lemma forward_fill_counterexample :
  exists s,
    outcome (_get_holding_prices Sample.no_history Sample.one_quote 0 2 Sample.holdingA)
      = Return (Some s) /\
    pd.at_label (rows s) 0 = Some 100%Q /\
    ~ without_gaps 0 2 s.
Proof.
  eexists. split; [vm_compute; reflexivity|]. split; [reflexivity|].
  intros [_ Hgap]. destruct (Hgap 1 ltac:(lia)) as [v Hv]. discriminate Hv.
Qed.

Lemma price_history_daily_witness :
  exists s,
    outcome (_get_holding_prices Sample.no_history Sample.one_quote 0 2 Sample.holdingA)
      = Return (Some s) /\
    daily 0 2 (inferred_price [Sample.buy 0 10 100 Sample.USD]) s.
Proof.
  apply (proj2 (proj2 (price_history_daily Sample.no_history Sample.one_quote
                         0 2 Sample.holdingA))).
  - reflexivity.
  - exact I.
  - lia.
  - repeat constructor; simpl; lia.
Defined.

Lemma price_source_priority_witness :
  outcome (_get_holding_prices Sample.no_history Sample.one_quote 0 2 Sample.holdingA)
  = Return (Some {| name := "A";
                    rows := (fun d => (d, inferred_price [Sample.buy 0 10 100 Sample.USD] d))
                              <$> pd.date_range 0 2 |}).
Proof.
  apply (proj2 (proj2 (price_source_priority Sample.no_history Sample.one_quote
                         0 2 Sample.holdingA))).
  - reflexivity.
  - exact I.
  - lia.
  - repeat constructor; simpl; lia.
Defined.

(** ** The aligned price table *)

Lemma elem_of_insert_label (x d : date) (l : list date) :
  x ∈ pd.insert_label d l <-> x = d \/ x ∈ l.
Proof.
  induction l as [|y l IH]; simpl.
  - rewrite list_elem_of_singleton. split; [auto|]. intros [?|[]%elem_of_nil]; done.
  - destruct (d <? y) eqn:E1; [by rewrite elem_of_cons|].
    destruct (d =? y) eqn:E2.
    + apply Z.eqb_eq in E2 as ->. rewrite elem_of_cons. tauto.
    + rewrite !elem_of_cons, IH. tauto.
Qed.

Lemma elem_of_union_index (x : date) (ls : list (list date)) :
  x ∈ pd.union_index ls <-> x ∈ mjoin ls.
Proof.
  unfold pd.union_index. induction (mjoin ls) as [|d l IH]; simpl; [done|].
  rewrite elem_of_insert_label, elem_of_cons, IH. done.
Qed.

Lemma increasing_insert_label (d : date) (l : list date) :
  pd.increasing l = true -> pd.increasing (pd.insert_label d l) = true.
Proof.
  induction l as [|y l IH]; intros Hl; [done|]. simpl.
  destruct (d <? y) eqn:E1.
  - apply increasing_cons. split; [|done].
    apply Z.ltb_lt in E1. apply increasing_cons in Hl as [Hy _].
    constructor; [done|]. eapply Forall_impl; [exact Hy|]. simpl. lia.
  - destruct (d =? y) eqn:E2; [done|].
    apply increasing_cons in Hl as [Hy Hl].
    apply increasing_cons. split; [|by apply IH].
    apply Forall_forall. intros x [->|Hx]%elem_of_insert_label.
    + apply Z.ltb_ge in E1. apply Z.eqb_neq in E2. lia.
    + by apply (proj1 (Forall_forall _ _) Hy).
Qed.

Lemma increasing_union_index (ls : list (list date)) :
  pd.increasing (pd.union_index ls) = true.
Proof.
  unfold pd.union_index. induction (mjoin ls) as [|d l IH]; [done|].
  simpl. by apply increasing_insert_label.
Qed.

Lemma at_label_Some (rs : list (date * cell)) (d : date) (v : Q) :
  pd.at_label rs d = Some v -> d ∈ pd.labels rs.
Proof.
  unfold pd.at_label. destruct (List.find _ rs) as [r|] eqn:E; [|done].
  intros _. apply find_some in E as [Hin Heq]. apply Z.eqb_eq in Heq as <-.
  apply list_elem_of_fmap. exists r. split; [done|]. by apply list_elem_of_In.
Qed.

Lemma known_nil (idx : list date) (col : list cell) :
  Forall (fun c => c = None) col -> pd.known idx col = [].
Proof.
  unfold pd.known. intros Hall. revert idx.
  induction Hall as [|c col -> _ IH]; intros [|d idx]; simpl; done.
Qed.

Lemma known_cons (idx : list date) (col : list cell) (i : nat) (d : date) (v : Q) :
  idx !! i = Some d -> col !! i = Some (Some v) -> pd.known idx col <> [].
Proof.
  unfold pd.known. revert idx col. induction i as [|i IH]; intros [|x idx] [|c col]; try done.
  - simpl. by intros [= ->] [= ->].
  - simpl. intros Hi Hc. destruct c; simpl; [done|]. by apply (IH idx col).
Qed.

Lemma length_interpolate_column (idx : list date) (col : list cell) :
  length col = length idx -> length (pd.interpolate_column idx col) = length col.
Proof.
  intros Hlen. unfold pd.interpolate_column.
  destruct (pd.known idx col) as [|[x0 y0] pts]; [done|].
  rewrite length_fmap, length_zip_with. lia.
Qed.

(** A column that holds a value somewhere has no empty cell left. *)
Lemma interpolate_column_filled (idx : list date) (col : list cell) (i : nat) (d : date) (v : Q) :
  idx !! i = Some d -> col !! i = Some (Some v) ->
  Forall is_Some (pd.interpolate_column idx col).
Proof.
  intros Hi Hc. unfold pd.interpolate_column.
  pose proof (known_cons idx col i d v Hi Hc) as Hne.
  destruct (pd.known idx col) as [|[x0 y0] pts]; [done|].
  apply Forall_fmap, Forall_forall. intros r _. simpl.
  destruct (snd r); by eexists.
Qed.

(** A column without any value is left empty. *)
Lemma interpolate_column_empty (idx : list date) (col : list cell) :
  Forall (fun c => c = None) col -> pd.interpolate_column idx col = col.
Proof. intros Hall. unfold pd.interpolate_column. by rewrite known_nil. Qed.

(** The table of a non-empty list of series: one column per series, in
    order, over the union of their labels. *)
Lemma concat_interpolate_columns (ss : list Series) (s0 : Series) :
  ss !! 0%nat = Some s0 ->
  exists df,
    pd.concat ss = Return df /\
    index df = pd.union_index ((fun s => pd.labels (rows s)) <$> ss) /\
    columns (pd.interpolate df) =
      (fun s => (name s, pd.interpolate_column (index df) (pd.at_label (rows s) <$> index df)))
        <$> ss.
Proof.
  intros H0. destruct ss as [|s ss]; [done|].
  eexists. split; [done|]. split; [done|].
  unfold pd.interpolate. cbn [columns index].
  rewrite <- list_fmap_compose. by apply list_fmap_ext.
Qed.

Section Table.

Context {Currency : Type}.
Variable yf_history : string -> date -> date -> list (date * cell).
Variable cfg : Config Currency.

Local Abbreviation holding_prices := (_get_holding_prices yf_history cfg).
Local Abbreviation collect := (collect_prices yf_history cfg).
Local Abbreviation get_prices_of := (_get_prices yf_history cfg).
Local Abbreviation built := (fun (e : Entry) (s : Series) => builds yf_history cfg e s).

(** Every return of [_get_holding_prices] is a series. *)
Lemma holding_prices_not_none (start end_ : date) (h : Holding) :
  outcome (holding_prices start end_ h) <> Return None.
Proof.
  assert (Hlift : forall (l : list LogMsg) (r : result Series),
            outcome (bind (l, Return tt)
                       (fun _ => bind (lift r) (fun s => ret (Some s)))) <> Return None).
  { intros l [s0|e]; simpl; done. }
  unfold _get_holding_prices, from_transactions, log_info, log_warning.
  destruct (get_prices cfg h start end_) as [p|]; [apply Hlift|].
  destruct (ticker h) as [t|]; [|apply Hlift].
  destruct (0 <? _)%nat; apply Hlift.
Qed.

Lemma stale_spec (s : Series) :
  stale s = true <-> Forall (fun r => r.2 = None) (pd.tail 7 (rows s)).
Proof.
  unfold stale. induction (pd.tail 7 (rows s)) as [|r l IH]; simpl.
  - split; [constructor|done].
  - rewrite Forall_cons, andb_true_iff, IH.
    destruct r as [d [v|]]; simpl; split; intros [? ?]; try done; by split.
Qed.

Lemma collect_prices_step (e : Entry) (s : Series) (acc : list Series) :
  built e s ->
  outcome (collect e acc) = Return (acc ++ [s]) /\
  (stale s = true -> stale_warning e ∈ logs (collect e acc)).
Proof.
  unfold builds, collect_prices. intros Hb.
  destruct (holding_prices _ _ _) as [l r]. simpl in Hb. subst r.
  unfold stale_warning, log_warning. simpl.
  destruct (stale s); simpl; split; try done.
  intros _. apply elem_of_app. right. by left.
Qed.

Lemma collect_prices_inv (e : Entry) (acc acc' : list Series) :
  outcome (collect e acc) = Return acc' ->
  exists s, built e s /\ acc' = acc ++ [s].
Proof.
  unfold collect_prices. intros (ph & Hph & Hrest)%outcome_bind_inv.
  destruct ph as [s|]; [|by apply holding_prices_not_none in Hph].
  exists s. split; [done|].
  destruct (collect_prices_step e s acc Hph) as [Hout _].
  unfold collect_prices in Hout.
  rewrite (outcome_bind_return _ _ _ Hph) in Hout. congruence.
Qed.

Lemma collect_prices_loop (es : list Entry) (ss acc : list Series) :
  Forall2 built es ss ->
  outcome (for_each collect es acc) = Return (acc ++ ss) /\
  (forall i e s, es !! i = Some e -> ss !! i = Some s -> stale s = true ->
     stale_warning e ∈ logs (for_each collect es acc)).
Proof.
  intros Hall. revert acc.
  induction Hall as [|e s es ss Hb _ IH]; intros acc.
  - simpl. rewrite app_nil_r. split; [done|]. intros i e s Hi. done.
  - destruct (collect_prices_step e s acc Hb) as [Hout Hlog].
    destruct (IH (acc ++ [s])) as [IHout IHlog].
    cbn [for_each]. split.
    + rewrite (outcome_bind_return _ _ _ Hout), IHout. by rewrite <- app_assoc.
    + intros i e' s' Hi Hs Hst. rewrite logs_bind, Hout. apply elem_of_app.
      destruct i as [|i]; simpl in Hi, Hs.
      * left. injection Hi as <-. injection Hs as <-. by apply Hlog.
      * right. by apply (IHlog i e' s').
Qed.

Lemma collect_prices_loop_inv (es : list Entry) (acc acc' : list Series) :
  outcome (for_each collect es acc) = Return acc' ->
  exists ss, Forall2 built es ss /\ acc' = acc ++ ss.
Proof.
  revert acc. induction es as [|e es IH]; intros acc; cbn [for_each].
  - simpl. intros [= <-]. exists []. split; [constructor|by rewrite app_nil_r].
  - intros (acc1 & H1 & Hrest)%outcome_bind_inv.
    apply collect_prices_inv in H1 as (s & Hb & ->).
    apply IH in Hrest as (ss & Hall & ->).
    exists (s :: ss). split; [by constructor|]. by rewrite <- app_assoc.
Qed.

(** When every holding has its series built, the table has one column
    per series, in order, over the union of their days. *)
Lemma get_prices_table (fh : list (string * Entry)) (ss : list Series) :
  fh <> [] ->
  Forall2 built fh.*2 ss ->
  exists df,
    outcome (get_prices_of fh) = Return df /\
    index df = pd.union_index ((fun s => pd.labels (rows s)) <$> ss) /\
    columns df =
      (fun s => (name s, pd.interpolate_column (index df) (pd.at_label (rows s) <$> index df)))
        <$> ss.
Proof.
  intros Hne Hall.
  destruct (collect_prices_loop _ _ [] Hall) as [Hloop _]. simpl in Hloop.
  assert (exists s0, ss !! 0%nat = Some s0) as [s0 Hs0].
  { destruct ss as [|s0 ss]; [|by exists s0].
    apply Forall2_nil_inv_r in Hall. by destruct fh. }
  destruct (concat_interpolate_columns ss s0 Hs0) as (df0 & Hc & Hidx & Hcols).
  exists (pd.interpolate df0). split; [|done].
  unfold _get_prices. rewrite (outcome_bind_return _ _ _ Hloop).
  unfold lift. by rewrite Hc.
Qed.

Lemma get_prices_inv (fh : list (string * Entry)) (df : DataFrame) :
  outcome (get_prices_of fh) = Return df ->
  exists ss, fh <> [] /\ Forall2 built fh.*2 ss.
Proof.
  unfold _get_prices. intros (ss & Hloop & Hrest)%outcome_bind_inv.
  apply collect_prices_loop_inv in Hloop as (ss' & Hall & ->). simpl in Hrest.
  exists ss'. split; [|done]. intros ->.
  apply Forall2_nil_inv_l in Hall as ->. done.
Qed.

Lemma table_column (fh : list (string * Entry)) (ss : list Series) (i : nat) (s : Series) :
  fh <> [] -> Forall2 built fh.*2 ss -> ss !! i = Some s ->
  exists df col,
    outcome (get_prices_of fh) = Return df /\
    length (columns df) = length fh /\
    columns df !! i = Some (name s, col) /\
    col = pd.interpolate_column (index df) (pd.at_label (rows s) <$> index df) /\
    length col = length (index df) /\
    (forall d v, pd.at_label (rows s) d = Some v -> Forall is_Some col) /\
    ((forall d, pd.at_label (rows s) d = None) -> Forall (fun c => c = None) col).
Proof.
  intros Hne Hall Hs.
  destruct (get_prices_table fh ss Hne Hall) as (df & Hout & Hidx & Hcols).
  exists df, (pd.interpolate_column (index df) (pd.at_label (rows s) <$> index df)).
  split; [done|]. split; [|split; [|split; [done|split; [|split]]]].
  - rewrite Hcols, length_fmap. apply Forall2_length in Hall.
    by rewrite length_fmap in Hall.
  - by rewrite Hcols, list_lookup_fmap, Hs.
  - rewrite length_interpolate_column; by rewrite length_fmap.
  - intros d v Hv.
    assert (Hd : d ∈ index df).
    { rewrite Hidx. apply elem_of_union_index, list_elem_of_join.
      exists (pd.labels (rows s)). split; [by apply (at_label_Some _ _ v)|].
      apply list_elem_of_fmap. exists s. split; [done|].
      by apply list_elem_of_lookup_2 with i. }
    apply list_elem_of_lookup_1 in Hd as [j Hj].
    apply (interpolate_column_filled _ _ j d v Hj).
    by rewrite list_lookup_fmap, Hj, <- Hv.
  - intros Hnone.
    assert (Hcol : Forall (fun c : cell => c = None) (pd.at_label (rows s) <$> index df))
      by (apply Forall_fmap, Forall_forall; intros d _; apply Hnone).
    by rewrite interpolate_column_empty.
Qed.

(** The table of [_get_prices] has increasing days and columns as long
    as its index. *)
Lemma get_prices_shape (fh : list (string * Entry)) (df : DataFrame) :
  outcome (get_prices_of fh) = Return df ->
  pd.increasing (index df) = true /\
  Forall (fun c => length c.2 = length (index df)) (columns df).
Proof.
  intros Hout. destruct (get_prices_inv fh df Hout) as (ss & Hne & Hall).
  destruct (get_prices_table fh ss Hne Hall) as (df' & Hout' & Hidx & Hcols).
  rewrite Hout in Hout'. injection Hout' as <-. split.
  - rewrite Hidx. apply increasing_union_index.
  - rewrite Hcols. apply Forall_fmap, Forall_forall. intros s _. simpl.
    rewrite length_interpolate_column; by rewrite length_fmap.
Qed.

(** C6: when the last seven rows of a holding's series are all empty,
    a warning that names the holding is logged, nothing is raised, and
    the series is a column of the price table all the same. *)
Theorem stale_prices_warn (fh : list (string * Entry)) (ss : list Series)
    (i : nat) (k : string) (e : Entry) (s : Series) :
  Forall2 built fh.*2 ss ->
  fh !! i = Some (k, e) -> ss !! i = Some s ->
  Forall (fun r => r.2 = None) (pd.tail 7 (rows s)) ->
  Warning ("Most recent price is older than one week for " +:+ get_key (entry_holding e))
    ∈ logs (get_prices_of fh) /\
  exists df,
    outcome (get_prices_of fh) = Return df /\
    columns df !! i =
      Some (name s,
            pd.interpolate_column (index df) (pd.at_label (rows s) <$> index df)).
Proof.
  intros Hall Hi Hs Hstale. split.
  - unfold _get_prices. rewrite logs_bind. apply elem_of_app. left.
    destruct (collect_prices_loop _ _ [] Hall) as [_ Hlog].
    apply (Hlog i e s); [by rewrite list_lookup_fmap, Hi|done|by apply stale_spec].
  - destruct (table_column fh ss i s) as (df & col & Hout & _ & Hcol & -> & _);
      [by intros -> | done | done |].
    by exists df.
Qed.

(** C7, as the code has it: in the price table every column is aligned
    with the index, and a column whose series holds a value on some day
    has no empty cell; a column whose series holds no value at all
    stays entirely empty. *)
Theorem aligned_table_filled (fh : list (string * Entry)) (df : DataFrame) :
  outcome (get_prices_of fh) = Return df ->
  exists ss,
    Forall2 built fh.*2 ss /\
    length (columns df) = length ss /\
    forall i s, ss !! i = Some s ->
      exists col,
        columns df !! i = Some (name s, col) /\
        length col = length (index df) /\
        (forall d v, pd.at_label (rows s) d = Some v -> Forall is_Some col) /\
        ((forall d, pd.at_label (rows s) d = None) -> Forall (fun c => c = None) col).
Proof.
  intros Hout. destruct (get_prices_inv fh df Hout) as (ss & Hne & Hall).
  exists ss. split; [done|]. split.
  - destruct (get_prices_table fh ss Hne Hall) as (df' & Hout' & _ & Hcols).
    rewrite Hout in Hout'. injection Hout' as <-.
    by rewrite Hcols, length_fmap.
  - intros i s Hs.
    destruct (table_column fh ss i s Hne Hall Hs)
      as (df' & col & Hout' & _ & Hcol & _ & Hlen & Hfull & Hnone).
    rewrite Hout in Hout'. injection Hout' as <-. by exists col.
Qed.

Lemma priceless_series (start end_ : date) (h : Holding) :
  priceless yf_history cfg start end_ h -> start <= end_ ->
  outcome (holding_prices start end_ h) =
  Return (Some {| name := get_key h;
                  rows := pd.empty_series (pd.date_range start end_) |}).
Proof.
  intros (Hp & Ht & Htrs) Hse.
  rewrite holding_prices_inferred by done.
  rewrite from_transactions_daily; [|done|].
  - do 3 f_equal. apply list_fmap_ext. intros _ d _. f_equal.
    unfold inferred_price, inferred_from.
    induction Htrs as [|t l Hnone _ IH]; simpl; [done|]. by rewrite Hnone.
  - eapply Forall_impl; [exact Htrs|]. simpl. intros t -> [? ?]. done.
Qed.

Lemma at_label_empty_series (idx : list date) (d : date) :
  pd.at_label (pd.empty_series idx) d = None.
Proof.
  unfold pd.at_label, pd.empty_series.
  induction idx as [|x idx IH]; simpl; [done|]. by destruct (x =? d).
Qed.

(** C10: [_get_holding_prices] never returns None; without a price
    from any source it returns the all-empty series over [start, end];
    and whenever every holding has its series built the table has one
    column per holding, that of a holding without prices being empty. *)
Theorem every_holding_has_a_column :
  (forall start end_ h, outcome (holding_prices start end_ h) <> Return None) /\
  (forall start end_ h,
     priceless yf_history cfg start end_ h -> start <= end_ ->
     outcome (holding_prices start end_ h) =
     Return (Some {| name := get_key h;
                     rows := pd.empty_series (pd.date_range start end_) |})) /\
  (forall fh ss, fh <> [] -> Forall2 built fh.*2 ss ->
     exists df,
       outcome (get_prices_of fh) = Return df /\
       length (columns df) = length fh /\
       forall i k e, fh !! i = Some (k, e) ->
         exists s col,
           built e s /\ columns df !! i = Some (name s, col) /\
           length col = length (index df) /\
           (priceless yf_history cfg (entry_date e) (end_date cfg) (entry_holding e) ->
            entry_date e <= end_date cfg ->
            name s = get_key (entry_holding e) /\ Forall (fun c => c = None) col)).
Proof.
  split; [apply holding_prices_not_none|]. split; [apply priceless_series|].
  intros fh ss Hne Hall.
  destruct (get_prices_table fh ss Hne Hall) as (df & Hout & Hidx & Hcols).
  exists df. split; [done|]. split.
  { rewrite Hcols, length_fmap. apply Forall2_length in Hall.
    by rewrite length_fmap in Hall. }
  intros i k e Hi.
  assert (He : fh.*2 !! i = Some e) by (by rewrite list_lookup_fmap, Hi).
  destruct (Forall2_lookup_l _ _ _ _ _ Hall He) as (s & Hs & Hb).
  destruct (table_column fh ss i s Hne Hall Hs)
    as (df' & col & Hout' & _ & Hcol & _ & Hlen & _ & Hnone).
  rewrite Hout in Hout'. injection Hout' as <-.
  exists s, col. split; [done|]. split; [done|]. split; [done|].
  intros Hpl Hle. pose proof (priceless_series _ _ _ Hpl Hle) as Hs'.
  unfold builds in Hb. rewrite Hb in Hs'. injection Hs' as ->.
  split; [done|]. apply Hnone. intros d. apply at_label_empty_series.
Qed.

End Table.

(** C7 as stated fails: A has no price from any source, and its column
    of the price table is empty on both days. *)
Lemma no_gap_counterexample :
  exists df,
    outcome (_get_prices Sample.no_history Sample.no_price
               (_get_first_holdings [Sample.balanceA 0])) = Return df /\
    ~ no_empty_cell df.
Proof.
  eexists. split; [vm_compute; reflexivity|].
  intros Hall. apply Forall_cons in Hall as [[_ Hcol] _].
  apply Forall_cons in Hcol as [[v Hv] _]. discriminate Hv.
Qed.

Lemma aligned_table_filled_witness :
  exists ss,
    Forall2 (builds Sample.no_history Sample.two_quotes)
            (_get_first_holdings [Sample.balanceA 0]).*2 ss /\
    length [("A"%string, Some <$> [100; 1100 # 10; 1200 # 10; 1300 # 10; 1400 # 10; 1500 # 10;
                 1600 # 10; 1700 # 10; 1800 # 10; 1900 # 10; 200]%Q)]
      = length ss /\
    forall i s, ss !! i = Some s ->
      exists col,
        [("A"%string, Some <$> [100; 1100 # 10; 1200 # 10; 1300 # 10; 1400 # 10; 1500 # 10;
                 1600 # 10; 1700 # 10; 1800 # 10; 1900 # 10; 200]%Q)]
          !! i = Some (name s, col) /\
        length col = length (pd.date_range 0 10) /\
        (forall d v, pd.at_label (rows s) d = Some v -> Forall is_Some col) /\
        ((forall d, pd.at_label (rows s) d = None) -> Forall (fun c => c = None) col).
Proof.
  apply (aligned_table_filled Sample.no_history Sample.two_quotes
           (_get_first_holdings [Sample.balanceA 0])
           {| index := pd.date_range 0 10;
              columns := [("A"%string,
                           Some <$> [100; 1100 # 10; 1200 # 10; 1300 # 10; 1400 # 10; 1500 # 10;
                 1600 # 10; 1700 # 10; 1800 # 10; 1900 # 10; 200]%Q)] |}).
  vm_compute. reflexivity.
Defined.

(** ** Interpolation of a column *)

Lemma increasing_head_le (x y : date) (l : list date) :
  pd.increasing (x :: l) = true -> y ∈ x :: l -> x <= y.
Proof.
  intros [Hall _]%increasing_cons [->|Hy]%elem_of_cons; [lia|].
  apply (proj1 (Forall_forall _ _) Hall) in Hy. lia.
Qed.

Lemma increasing_lookup_lt (l : list date) (i j : nat) (x y : date) :
  pd.increasing l = true -> (i < j)%nat ->
  l !! i = Some x -> l !! j = Some y -> x < y.
Proof.
  revert i j. induction l as [|a l IH]; intros i j Hinc Hij Hi Hj; [done|].
  apply increasing_cons in Hinc as [Hall Hinc].
  destruct j as [|j]; [lia|]. simpl in Hj. destruct i as [|i]; simpl in Hi.
  - injection Hi as ->.
    apply (proj1 (Forall_forall _ _) Hall). by apply list_elem_of_lookup_2 with j.
  - apply (IH i j); [done|lia|done..].
Qed.

Lemma known_app (idx1 idx2 : list date) (col1 col2 : list cell) :
  length idx1 = length col1 ->
  pd.known (idx1 ++ idx2) (col1 ++ col2) = pd.known idx1 col1 ++ pd.known idx2 col2.
Proof. intros Hlen. unfold pd.known. by rewrite zip_with_app, omap_app. Qed.

Lemma known_labels (idx : list date) (col : list cell) (x : date) :
  x ∈ (pd.known idx col).*1 -> x ∈ idx.
Proof.
  unfold pd.known. revert col.
  induction idx as [|d idx IH]; intros [|c col]; simpl; try (by intros []%elem_of_nil).
  destruct c as [v|]; simpl.
  - intros [->|Hx]%elem_of_cons; [by left|]. right. by apply (IH col).
  - intros Hx. right. by apply (IH col).
Qed.

Lemma increasing_known (idx : list date) (col : list cell) :
  pd.increasing idx = true -> pd.increasing (pd.known idx col).*1 = true.
Proof.
  revert col. induction idx as [|d idx IH]; intros [|c col] Hinc; try done.
  apply increasing_cons in Hinc as [Hall Hinc].
  specialize (IH col Hinc).
  destruct c as [v|]; [|exact IH].
  change (pd.increasing (d :: (pd.known idx col).*1) = true).
  apply increasing_cons. split; [|done].
  apply Forall_forall. intros x Hx%known_labels.
  by apply (proj1 (Forall_forall _ _) Hall).
Qed.



(** Between two neighbouring known points: on the line through them. *)
Lemma np_interp_segment (d d0 d1 : date) (v0 v1 : Q) (kpre kpost : list (date * Q))
    (x0 : date) (y0 : Q) (pts : list (date * Q)) :
  (x0, y0) :: pts = kpre ++ (d0, v0) :: (d1, v1) :: kpost ->
  pd.increasing (x0 :: pts.*1) = true ->
  d0 < d < d1 ->
  pd.np_interp d x0 y0 pts =
  ((v1 - v0) / inject_Z (d1 - d0) * inject_Z (d - d0) + v0)%Q.
Proof.
  revert x0 y0 pts. induction kpre as [|[a va] kpre IH]; intros x0 y0 pts Heq Hinc Hd.
  - simpl in Heq. injection Heq as -> -> ->. simpl.
    by rewrite (proj2 (Z.leb_gt _ _)), (proj2 (Z.ltb_lt _ _)) by lia.
  - simpl in Heq. injection Heq as -> -> ->.
    pose proof Hinc as [Hall Hinc']%increasing_cons.
    assert (Hd0 : d0 ∈ (kpre ++ (d0, v0) :: (d1, v1) :: kpost).*1).
    { rewrite fmap_app, fmap_cons. apply elem_of_app. right. by left. }
    assert (a < d0) by (by apply (proj1 (Forall_forall _ _) Hall)).
    destruct (kpre ++ (d0, v0) :: (d1, v1) :: kpost) as [|[x1 y1] pts'] eqn:E;
      [by destruct kpre|].
    assert (x1 <= d0) by (by apply (increasing_head_le x1 d0 pts'.*1)).
    simpl. rewrite (proj2 (Z.leb_gt _ _)), (proj2 (Z.ltb_ge _ _)) by lia.
    by apply IH.
Qed.

Lemma interpolate_column_lookup (idx : list date) (col : list cell) (i : nat) (d : date)
    (x0 : date) (y0 : Q) (pts : list (date * Q)) :
  pd.known idx col = (x0, y0) :: pts ->
  idx !! i = Some d -> col !! i = Some None ->
  pd.interpolate_column idx col !! i = Some (Some (pd.np_interp d x0 y0 pts)).
Proof.
  intros Hk Hi Hc. unfold pd.interpolate_column. rewrite Hk.
  assert (Hz : zip idx col !! i = Some (d, None))
    by (apply lookup_zip_with_Some; by exists d, None).
  by rewrite list_lookup_fmap, Hz.
Qed.

(** The known points of a column around a gap between rows [i0] and [i1]. *)
Lemma known_around_gap (idx : list date) (col : list cell) (i0 i1 : nat)
    (d0 d1 : date) (v0 v1 : Q) :
  length col = length idx -> (i0 < i1)%nat ->
  idx !! i0 = Some d0 -> idx !! i1 = Some d1 ->
  col !! i0 = Some (Some v0) -> col !! i1 = Some (Some v1) ->
  (forall j, (i0 < j < i1)%nat -> col !! j = Some None) ->
  exists kpre kpost, pd.known idx col = kpre ++ (d0, v0) :: (d1, v1) :: kpost.
Proof.
  intros Hlen Hlt Hi0 Hi1 Hc0 Hc1 Hgap.
  set (g := (i1 - S i0)%nat).
  assert (Hi1' : drop (S i0) idx !! g = Some d1)
    by (rewrite lookup_drop; replace (S i0 + g)%nat with i1 by lia; done).
  assert (Hc1' : drop (S i0) col !! g = Some (Some v1))
    by (rewrite lookup_drop; replace (S i0 + g)%nat with i1 by lia; done).
  rewrite <- (take_drop_middle idx i0 d0 Hi0), <- (take_drop_middle col i0 _ Hc0).
  rewrite <- (take_drop_middle _ g d1 Hi1'), <- (take_drop_middle _ g _ Hc1').
  assert (Hilen : (i0 < length idx)%nat) by (by apply lookup_lt_Some in Hi0).
  assert (Hi1len : (i1 < length idx)%nat) by (by apply lookup_lt_Some in Hi1).
  rewrite known_app by (rewrite !length_take; lia).
  change (pd.known (d0 :: ?l) (Some v0 :: ?k)) with ((d0, v0) :: pd.known l k).
  rewrite known_app by (rewrite !length_take, !length_drop; lia).
  rewrite (known_nil (take g (drop (S i0) idx))).
  - simpl. eexists _, _. reflexivity.
  - apply Forall_lookup. intros j c Hj.
    assert (j < g)%nat.
    { apply lookup_lt_Some in Hj. rewrite length_take in Hj. lia. }
    rewrite lookup_take_lt, lookup_drop in Hj by done.
    rewrite Hgap in Hj by lia. congruence.
Qed.


Section Interpolation.

Context {Currency : Type}.
Variable yf_history : string -> date -> date -> list (date * cell).
Variable cfg : Config Currency.


End Interpolation.


(** The same through the pipeline: A priced 100 on day 0 and 200 on day
    10 has the price 150 on day 5 of the table. *)
Example two_quotes_midpoint :
  exists df s col v,
    outcome (_get_prices Sample.no_history Sample.two_quotes
               (_get_first_holdings [Sample.balanceA 0])) = Return df /\
    builds Sample.no_history Sample.two_quotes (Sample.entryA 0) s /\
    pd.at_label (rows s) 0 = Some 100%Q /\
    pd.at_label (rows s) 10 = Some 200%Q /\
    (forall d, 0 < d < 10 -> pd.at_label (rows s) d = None) /\
    index df = pd.date_range 0 10 /\
    columns df = [("A"%string, col)] /\
    col !! 5%nat = Some (Some v) /\ (v == 150)%Q.
Proof.
  eexists _, _, _, _. split; [vm_compute; reflexivity|].
  split; [vm_compute; reflexivity|].
  split; [reflexivity|]. split; [reflexivity|]. split.
  - intros d Hd.
    assert (d = 1 \/ d = 2 \/ d = 3 \/ d = 4 \/ d = 5 \/ d = 6 \/ d = 7 \/ d = 8 \/ d = 9)
      as Hcases by lia.
    repeat (destruct Hcases as [-> | Hcases]; [reflexivity|]). by subst.
  - split; [reflexivity|]. split; [reflexivity|]. split; reflexivity.
Qed.

(** ** The report: balance and earnings *)








Section Report.

Context {Currency : Type}.
Variable cfg : Config Currency.
Variable _dst_currency_rates : Currency -> Q.

Local Abbreviation report_data := (_get_report_data cfg _dst_currency_rates).











End Report.

(** ** The claims on the sample portfolios *)

Lemma currency_fallback_order_witness :
  exists m,
    outcome (_get_currencies Sample.Cur_getitem Sample.no_info Sample.one_quote
               (_get_first_holdings [Sample.balanceA 0])) = Return m /\
    forall k e, (k, e) ∈ _get_first_holdings [Sample.balanceA 0] ->
      m !! k = currency_by_priority Sample.Cur_getitem Sample.no_info Sample.one_quote
                 (entry_holding e) /\
      forall p y,
        first_priced (transactions_by_holding Sample.one_quote (entry_holding e)) = Some p ->
        get_currency Sample.one_quote (entry_holding e) = Some y ->
        m !! k = Some (currency p).
Proof.
  apply (currency_fallback_order Sample.Cur_getitem Sample.no_info Sample.one_quote
           [Sample.balanceA 0]).
  apply Forall_cons. split; [|constructor]. exists Sample.USD. reflexivity.
Defined.

Lemma unresolved_currency_aborts_witness :
  outcome (__init__ Sample.Cur_getitem Sample.no_info Sample.no_history Sample.no_price
             [Sample.balanceA 0])
  = Raise (ValueError ("Couldn't determine currency for " +:+ "A")).
Proof.
  apply (proj2 (unresolved_currency_aborts Sample.Cur_getitem Sample.no_info
                  Sample.no_history Sample.no_price [Sample.balanceA 0]
                  "A" (Sample.entryA 0)
                  ltac:(apply list_elem_of_lookup_2 with 0%nat; reflexivity)
                  ltac:(split; [repeat constructor | split; [reflexivity | exact I]]))
           [] []).
  - reflexivity.
  - constructor.
Defined.

Lemma stale_prices_warn_witness :
  Warning ("Most recent price is older than one week for "
           +:+ get_key (entry_holding (Sample.entryA 0)))
    ∈ logs (_get_prices Sample.no_history Sample.old_quote
              (_get_first_holdings [Sample.balanceA 0])) /\
  exists df,
    outcome (_get_prices Sample.no_history Sample.old_quote
               (_get_first_holdings [Sample.balanceA 0])) = Return df /\
    columns df !! 0%nat =
      Some ("A"%string,
            pd.interpolate_column (index df)
              (pd.at_label ((0, Some 100%Q) :: pd.empty_series (pd.date_range 1 10))
                 <$> index df)).
Proof.
  apply (stale_prices_warn Sample.no_history Sample.old_quote
           (_get_first_holdings [Sample.balanceA 0])
           [{| name := "A";
               rows := (0, Some 100%Q) :: pd.empty_series (pd.date_range 1 10) |}]
           0%nat "A" (Sample.entryA 0)
           {| name := "A";
              rows := (0, Some 100%Q) :: pd.empty_series (pd.date_range 1 10) |}).
  - constructor; [|constructor]. unfold builds. vm_compute. reflexivity.
  - reflexivity.
  - reflexivity.
  - vm_compute. repeat constructor.
Defined.

Lemma every_holding_has_a_column_witness :
  outcome (_get_holding_prices Sample.no_history Sample.no_price 0 1 Sample.holdingA)
  = Return (Some {| name := "A"; rows := pd.empty_series (pd.date_range 0 1) |}).
Proof.
  apply (proj1 (proj2 (every_holding_has_a_column Sample.no_history Sample.no_price))
           0 1 Sample.holdingA).
  - split; [reflexivity|]. split; [exact I|]. repeat constructor.
  - lia.
Defined.




(** The scenario of spec section 8 through the whole pipeline: on day 8
    the row is A = 100 and B = 110, the balance is 210 and the earnings
    are 0. *)
Example scenario_day_8 :
  exists self r a b t e,
    outcome (__init__ Sample.Cur_getitem Sample.no_info Sample.no_history
               Sample.scenario Sample.scenario_balances) = Return self /\
    _get_report_data Sample.scenario Sample.rates self = Return r /\
    chart_labels (report_balances r) !! 7%nat = Some 8 /\
    holding_value (analysis_of Sample.rates self) (balances self) 8 "A" = Some a /\
    (a == 100)%Q /\
    holding_value (analysis_of Sample.rates self) (balances self) 8 "B" = Some b /\
    (b == 110)%Q /\
    chart_data (report_balances r) !! 7%nat = Some t /\ (t == 210)%Q /\
    chart_data (report_earnings r) !! 7%nat = Some (Some e) /\ (e == 0)%Q.
Proof.
  eexists _, _, _, _, _, _. split; [vm_compute; reflexivity|].
  split; [vm_compute; reflexivity|].
  split; [reflexivity|]. split; [vm_compute; reflexivity|]. split; [reflexivity|].
  split; [vm_compute; reflexivity|]. split; [reflexivity|].
  split; [reflexivity|]. split; [reflexivity|]. split; reflexivity.
Qed.

(** Earnings are not clamped: the price of A falls from 200 to 100 with
    10 units held, and the earnings of day 1 are -1000. *)
Example falling_price_day_1 :
  exists self r e,
    outcome (__init__ Sample.Cur_getitem Sample.no_info Sample.no_history
               SampleMore.falling [Sample.balanceA 0]) = Return self /\
    _get_report_data SampleMore.falling Sample.rates self = Return r /\
    chart_labels (report_earnings r) = [0; 1] /\
    chart_data (report_earnings r) !! 1%nat = Some (Some e) /\ (e == -1000)%Q.
Proof.
  eexists _, _, _. split; [vm_compute; reflexivity|].
  split; [vm_compute; reflexivity|]. split; [reflexivity|]. split; reflexivity.
Qed.

(** * Further properties of the code *)

(** ** [_get_first_holdings] *)

Lemma first_holdings_visited (bals : list Balance) :
  _get_first_holdings bals = foldl first_holdings_step [] (visited bals).
Proof.
  unfold _get_first_holdings, visited.
  match goal with
  | |- foldl ?f [] bals = _ =>
      enough (H : forall acc, foldl f acc bals
                = foldl first_holdings_step acc
                    (bals ≫= fun b => (fun h => (bal_date b, h)) <$> bal_holdings b))
        by apply H
  end.
  induction bals as [|b bals IH]; intros acc; [done|].
  cbn [foldl]. rewrite IH. rewrite bind_cons, foldl_app. f_equal.
  generalize acc. induction (bal_holdings b) as [|h hs IHh]; intros acc'; [done|].
  simpl. apply IHh.
Qed.

Lemma first_holdings_step_keys (l : list (date * Holding)) (acc : list (string * Entry))
    (k : string) :
  k ∈ (foldl first_holdings_step acc l).*1 <->
  k ∈ acc.*1 \/ exists p, p ∈ l /\ get_key p.2 = k.
Proof.
  revert acc. induction l as [|p l IH]; intros acc; simpl.
  - split; [auto|]. intros [?|(p & []%elem_of_nil & _)]. done.
  - rewrite IH. unfold first_holdings_step.
    destruct (key_in (get_key p.2) acc) eqn:E.
    + apply key_in_spec in E. split.
      * intros [?|(q & Hq & Hk)]; [by left|]. right. exists q. split; [by right|done].
      * intros [?|(q & [->|Hq]%elem_of_cons & Hk)]; [by left|left; by rewrite <- Hk|].
        right. by exists q.
    + rewrite fmap_app, elem_of_app. simpl. rewrite list_elem_of_singleton. split.
      * intros [[? | ->]|(q & Hq & Hk)]; [by left|right; exists p; split; [by left|done]|].
        right. exists q. split; [by right|done].
      * intros [?|(q & [->|Hq]%elem_of_cons & Hk)]; [by left; left|by left; right|].
        right. by exists q.
Qed.

(** An entry is in the result exactly when it was there before, or its
    key was not and it is the first visited holding of that key. *)
Lemma first_holdings_step_first (l : list (date * Holding)) (acc : list (string * Entry))
    (k : string) (d : date) (h : Holding) :
  NoDup acc.*1 ->
  (k, {| entry_date := d; entry_holding := h |}) ∈ foldl first_holdings_step acc l <->
  (k, {| entry_date := d; entry_holding := h |}) ∈ acc \/
  ((k ∉ acc.*1) /\ get_key h = k /\
   exists pre post, l = pre ++ (d, h) :: post /\ Forall (fun p => get_key p.2 <> k) pre).
Proof.
  revert acc. induction l as [|p l IH]; intros acc Hnd; simpl.
  - split; [auto|]. intros [?|(_ & _ & pre & post & Heq & _)]; [done|].
    by destruct pre.
  - unfold first_holdings_step at 2. destruct (key_in (get_key p.2) acc) eqn:E.
    + rewrite (IH acc Hnd). apply key_in_spec in E. split.
      * intros [?|(Hk & Hh & pre & post & -> & Hpre)]; [by left|]. right.
        split; [done|]. split; [done|]. exists (p :: pre), post. split; [done|].
        constructor; [|done]. intros Hp. apply Hk. by rewrite <- Hp.
      * intros [?|(Hk & Hh & pre & post & Heq & Hpre)]; [by left|]. right.
        split; [done|]. split; [done|].
        destruct pre as [|q pre]; simpl in Heq; injection Heq as -> ->.
        -- simpl in E. congruence.
        -- apply Forall_cons in Hpre as [_ Hpre]. by exists pre, post.
    + assert (Hnk : get_key p.2 ∉ acc.*1).
      { intros Hin%key_in_spec. congruence. }
      rewrite IH.
      2:{ rewrite fmap_app. apply NoDup_app. split; [done|]. split.
          - intros x Hx ->%list_elem_of_singleton. done.
          - apply NoDup_singleton. }
      rewrite elem_of_app, list_elem_of_singleton, fmap_app, elem_of_app.
      simpl. rewrite list_elem_of_singleton. split.
      * intros [[?|Heq]|(Hk & Hh & pre & post & -> & Hpre)].
        -- by left.
        -- injection Heq as -> -> ->. right. split; [done|]. split; [done|].
           exists [], l. split; [by destruct p|constructor].
        -- right. split; [tauto|]. split; [done|].
           exists (p :: pre), post. split; [done|]. constructor; [|done].
           intros Hp. apply Hk. by right.
      * intros [?|(Hk & Hh & pre & post & Heq & Hpre)]; [by left; left|].
        destruct pre as [|q pre]; simpl in Heq; injection Heq as -> ->.
        -- left. right. simpl. by rewrite Hh.
        -- apply Forall_cons in Hpre as [Hq Hpre]. right.
           split; [|split; [done|by exists pre, post]].
           intros [?|?]; [done|]. by apply Hq.
Qed.

(** X1: the keys of the first holdings are distinct, and they are exactly
    the keys of the holdings that some balance holds. *)
Theorem first_holdings_keys (bals : list Balance) (k : string) :
  NoDup (_get_first_holdings bals).*1 /\
  (k ∈ (_get_first_holdings bals).*1 <->
   exists b h, b ∈ bals /\ h ∈ bal_holdings b /\ get_key h = k).
Proof.
  split; [apply first_holdings_keyed|].
  rewrite first_holdings_visited, first_holdings_step_keys. unfold visited. split.
  - intros [[]%elem_of_nil|(p & Hp & Hk)].
    apply list_elem_of_bind in Hp as (b & Hp & Hb).
    apply list_elem_of_fmap in Hp as (h & -> & Hh). by exists b, h.
  - intros (b & h & Hb & Hh & Hk). right. exists (bal_date b, h). split; [|done].
    apply list_elem_of_bind. exists b. split; [|done].
    apply list_elem_of_fmap. by exists h.
Qed.

(** X2: the entry of a key holds the date and the holding of the first
    visit of that key: of the first balance that holds it and, in that
    balance, of the first holding with the key. *)
Theorem first_holdings_first (bals : list Balance) (k : string) (d : date) (h : Holding) :
  (k, {| entry_date := d; entry_holding := h |}) ∈ _get_first_holdings bals <->
  get_key h = k /\
  exists pre post,
    visited bals = pre ++ (d, h) :: post /\ Forall (fun p => get_key p.2 <> k) pre.
Proof.
  rewrite first_holdings_visited, first_holdings_step_first by constructor.
  split.
  - intros [[]%elem_of_nil|(_ & ? & ?)]. done.
  - intros [? ?]. right. split; [|done]. intros []%elem_of_nil.
Qed.

(** ** [_get_currencies] *)

Section CurrenciesLog.

Context {Currency : Type}.
Variable Currency_getitem : string -> option Currency.
Variable yf_info : string -> gmap string string.
Variable cfg : Config Currency.

Local Abbreviation resolve := (resolve_currency Currency_getitem yf_info cfg).
Local Abbreviation priority := (currency_by_priority Currency_getitem yf_info cfg).
Local Abbreviation ekey := (fun e : Entry => get_key (entry_holding e)).
Local Abbreviation line := (fun k : string => Info ("Getting currency for " +:+ k)).

Lemma resolved_or_not (es : list Entry) :
  Forall (fun e => is_Some (priority (entry_holding e))) es \/
  Exists (fun e => priority (entry_holding e) = None) es.
Proof.
  induction es as [|e es [IH|IH]].
  - left. constructor.
  - destruct (priority (entry_holding e)) as [c|] eqn:E.
    + left. constructor; [by rewrite E; eexists|done].
    + right. by left.
  - right. by right.
Qed.

(** The log of the loop: one line per entry, up to and including the
    first entry that does not resolve. *)
Lemma get_currencies_logs (es : list Entry) (m0 : gmap string Currency) :
  NoDup (ekey <$> es) ->
  Forall (fun e => m0 !! ekey e = None) es ->
  (Forall (fun e => is_Some (priority (entry_holding e))) es ->
   logs (for_each resolve es m0) = line <$> (ekey <$> es)) /\
  (forall pre e post,
     es = pre ++ e :: post ->
     Forall (fun e => is_Some (priority (entry_holding e))) pre ->
     priority (entry_holding e) = None ->
     logs (for_each resolve es m0) = line <$> (ekey <$> pre ++ [e])).
Proof.
  revert m0. induction es as [|x es IH]; intros m0 Hnd Hfresh.
  - split; [done|]. intros pre e post Heq. by destruct pre.
  - apply NoDup_cons in Hnd as [Hnotin Hnd].
    apply Forall_cons in Hfresh as [Hf Hfresh].
    cbn [for_each]. rewrite logs_bind, resolve_currency_spec by done.
    destruct (priority (entry_holding x)) as [c|] eqn:Hx; simpl.
    + assert (Hfresh' : Forall (fun e => <[ekey x := c]> m0 !! ekey e = None) es).
      { apply Forall_forall. intros e' He'. rewrite lookup_insert_ne.
        - by apply (proj1 (Forall_forall _ _) Hfresh).
        - intros Heq. apply Hnotin. apply list_elem_of_fmap. by exists e'. }
      destruct (IH _ Hnd Hfresh') as [IHall IHraise]. split.
      * intros [_ Hall]%Forall_cons. by rewrite IHall.
      * intros pre e post Heq Hpre He.
        destruct pre as [|y pre]; simpl in Heq; injection Heq as <- ->; [congruence|].
        apply Forall_cons in Hpre as [_ Hpre].
        by rewrite (IHraise pre e post eq_refl Hpre He).
    + split.
      * intros [[c Hc] _]%Forall_cons. congruence.
      * intros pre e post Heq Hpre He.
        destruct pre as [|y pre]; simpl in Heq; injection Heq as <- ->; [done|].
        apply Forall_cons in Hpre as [[c Hc] _]. congruence.
Qed.

Lemma empty_fresh (es : list Entry) :
  Forall (fun e => (∅ : gmap string Currency) !! ekey e = None) es.
Proof. apply Forall_forall. intros; apply lookup_empty. Qed.

(** The map that the loop returns has the keys of the entries. *)
Lemma currencies_dom_keyed (fh : list (string * Entry)) (m : gmap string Currency) :
  keyed fh ->
  outcome (_get_currencies Currency_getitem yf_info cfg fh) = Return m ->
  dom m = list_to_set fh.*1.
Proof.
  intros Hkeyed Hm. unfold _get_currencies in Hm.
  assert (Hnd : NoDup (ekey <$> fh.*2)).
  { rewrite (keyed_entries fh) by done. apply Hkeyed. }
  destruct (resolved_or_not fh.*2) as [Hall|Hex].
  - destruct (get_currencies_loop Currency_getitem yf_info cfg fh.*2 ∅ Hnd
                (empty_fresh _) Hall) as (m' & Hm' & Hin & Hout).
    rewrite Hm in Hm'. injection Hm' as <-.
    apply set_eq. intros k. rewrite elem_of_dom, elem_of_list_to_set.
    rewrite <- (keyed_entries fh) by done. split.
    + intros Hk. destruct (decide (k ∈ ekey <$> fh.*2)) as [|Hn]; [done|].
      rewrite (Hout k Hn), lookup_empty in Hk. by destruct Hk.
    + intros (e & -> & He)%list_elem_of_fmap. rewrite (Hin e He).
      by apply (proj1 (Forall_forall _ _) Hall).
  - destruct (first_unresolved Currency_getitem yf_info cfg _ Hex)
      as (pre & e & post & Heq & Hpre & He).
    rewrite Heq in Hnd, Hm.
    rewrite (get_currencies_raise Currency_getitem yf_info cfg pre post e) in Hm; done.
Qed.

(** X3: when currency resolution returns, the holdings that have a
    currency are exactly the first holdings. *)
Theorem currencies_domain (bals : list Balance) (m : gmap string Currency) :
  outcome (_get_currencies Currency_getitem yf_info cfg (_get_first_holdings bals))
    = Return m ->
  dom m = list_to_set (_get_first_holdings bals).*1.
Proof. apply currencies_dom_keyed, first_holdings_keyed. Qed.

(** X4: currency resolution returns exactly when every first holding
    resolves; what it raises is always the ValueError that names a first
    holding without any source, never the KeyError of the lookup. *)
Theorem currencies_only_value_error (bals : list Balance) :
  ((exists m, outcome (_get_currencies Currency_getitem yf_info cfg
                         (_get_first_holdings bals)) = Return m) <->
   Forall (fun p => is_Some (priority (entry_holding p.2))) (_get_first_holdings bals)) /\
  (forall x,
     outcome (_get_currencies Currency_getitem yf_info cfg (_get_first_holdings bals))
       = Raise x ->
     exists k e, (k, e) ∈ _get_first_holdings bals /\
       unresolvable Currency_getitem yf_info cfg (entry_holding e) /\
       x = ValueError ("Couldn't determine currency for " +:+ k)).
Proof.
  pose proof (first_holdings_keyed bals) as Hkeyed.
  unfold _get_currencies. set (fh := _get_first_holdings bals) in *.
  assert (Hnd : NoDup (ekey <$> fh.*2)).
  { rewrite (keyed_entries fh) by done. apply Hkeyed. }
  assert (Hcases :
    (Forall (fun e => is_Some (priority (entry_holding e))) fh.*2 /\
     exists m, outcome (for_each resolve fh.*2 ∅) = Return m) \/
    (exists e, e ∈ fh.*2 /\ priority (entry_holding e) = None /\
       outcome (for_each resolve fh.*2 ∅) = Raise (unresolved (entry_holding e)))).
  { destruct (resolved_or_not fh.*2) as [Hall|Hex].
    - left. split; [done|].
      destruct (get_currencies_loop Currency_getitem yf_info cfg fh.*2 ∅ Hnd
                  (empty_fresh _) Hall) as (m & Hm & _). by exists m.
    - right. destruct (first_unresolved Currency_getitem yf_info cfg _ Hex)
        as (pre & e & post & Heq & Hpre & He).
      exists e. split; [rewrite Heq; apply elem_of_app; right; by left|]. split; [done|].
      rewrite Heq in Hnd |- *. by apply get_currencies_raise. }
  split; [split|].
  - intros [m Hm]. destruct Hcases as [[Hall _]|(e & _ & _ & Hr)]; [|congruence].
    exact (proj1 (Forall_fmap _ _ _) Hall).
  - intros Hall. destruct Hcases as [[_ Hm]|(e & He & Hn & _)]; [done|].
    pose proof (proj2 (Forall_fmap snd
                  (fun e => is_Some (priority (entry_holding e))) fh) Hall) as Hall'.
    apply (proj1 (Forall_forall _ _) Hall') in He. simpl in He.
    rewrite Hn in He. by destruct He.
  - intros x Hx. destruct Hcases as [[_ [m Hm]]|(e & He & Hn & Hr)]; [congruence|].
    apply list_elem_of_fmap in He as ([k e'] & -> & He). simpl in *.
    exists k, e'. split; [done|]. split; [by apply unresolvable_priority|].
    rewrite Hx in Hr. injection Hr as ->. unfold unresolved. do 2 f_equal.
    destruct Hkeyed as [_ Hk]. symmetry.
    by apply (proj1 (Forall_forall _ _) Hk (k, e')).
Qed.

(** X5: currency resolution logs one line per first holding, in order,
    and stops after the line of the first holding that does not resolve. *)
Theorem currencies_log (bals : list Balance) :
  (forall m,
     outcome (_get_currencies Currency_getitem yf_info cfg (_get_first_holdings bals))
       = Return m ->
     logs (_get_currencies Currency_getitem yf_info cfg (_get_first_holdings bals))
       = line <$> (_get_first_holdings bals).*1) /\
  (forall pre k e post,
     _get_first_holdings bals = pre ++ (k, e) :: post ->
     Forall (fun p => is_Some (priority (entry_holding p.2))) pre ->
     unresolvable Currency_getitem yf_info cfg (entry_holding e) ->
     logs (_get_currencies Currency_getitem yf_info cfg (_get_first_holdings bals))
       = line <$> (pre.*1 ++ [k])).
Proof.
  pose proof (first_holdings_keyed bals) as Hkeyed.
  unfold _get_currencies. set (fh := _get_first_holdings bals) in *.
  assert (Hnd : NoDup (ekey <$> fh.*2)).
  { rewrite (keyed_entries fh) by done. apply Hkeyed. }
  destruct (get_currencies_logs fh.*2 ∅ Hnd (empty_fresh _)) as [Hall Hraise].
  split.
  - intros m Hm. rewrite <- (keyed_entries fh) by done. apply Hall.
    destruct (resolved_or_not fh.*2) as [|Hex]; [done|].
    destruct (first_unresolved Currency_getitem yf_info cfg _ Hex)
      as (pre & e & post & Heq & Hpre & He).
    rewrite Heq in Hnd, Hm.
    rewrite (get_currencies_raise Currency_getitem yf_info cfg pre post e) in Hm; done.
  - intros pre k e post Heq Hpre Hun.
    rewrite (Hraise pre.*2 e post.*2).
    + destruct Hkeyed as [_ Hk]. rewrite Heq in Hk.
      apply Forall_app in Hk as [Hkpre Hk2]. apply Forall_cons in Hk2 as [Hke _].
      simpl in Hke. f_equal. rewrite fmap_app. simpl. rewrite <- Hke. f_equal.
      clear -Hkpre. induction Hkpre as [|p l Hp _ IH]; [done|].
      rewrite !fmap_cons. by rewrite IH, Hp.
    + by rewrite Heq, fmap_app, fmap_cons.
    + by apply Forall_fmap.
    + by apply unresolvable_priority.
Qed.

End CurrenciesLog.

(** ** [_reindex] *)

Lemma index_min_le (d : date) (ds : list date) (x : date) :
  x ∈ d :: ds -> pd.index_min d ds <= x.
Proof.
  unfold pd.index_min. induction ds as [|y ds IH]; simpl; intros Hx.
  - apply list_elem_of_singleton in Hx. lia.
  - apply elem_of_cons in Hx as [Hx|Hx].
    + assert (foldr Z.min d ds <= x) by (apply IH; rewrite Hx; by left). lia.
    + apply elem_of_cons in Hx as [Hx|Hx]; [lia|].
      assert (foldr Z.min d ds <= x) by (apply IH; by right). lia.
Qed.

Lemma index_max_ge (d : date) (ds : list date) (x : date) :
  x ∈ d :: ds -> x <= pd.index_max d ds.
Proof.
  unfold pd.index_max. induction ds as [|y ds IH]; simpl; intros Hx.
  - apply list_elem_of_singleton in Hx. lia.
  - apply elem_of_cons in Hx as [Hx|Hx].
    + assert (x <= foldr Z.max d ds) by (apply IH; rewrite Hx; by left). lia.
    + apply elem_of_cons in Hx as [Hx|Hx]; [lia|].
      assert (x <= foldr Z.max d ds) by (apply IH; by right). lia.
Qed.

(** Whatever [_reindex] returns has the name of its argument and one row
    per day from the least to the greatest label. *)
Lemma reindex_shape (s s' : Series) :
  _reindex s = Return s' ->
  exists (f : date -> cell) (d : date) (ds : list date),
    pd.labels (rows s) = d :: ds /\
    s' = {| name := name s;
            rows := (fun t => (t, f t))
                      <$> pd.date_range (pd.index_min d ds) (pd.index_max d ds) |} /\
    (pd.increasing (d :: ds) = true -> f = fun t => pd.pad_increasing t (rows s) None).
Proof.
  unfold _reindex, pd.reindex_pad.
  destruct (pd.labels (rows s)) as [|d ds] eqn:El; [done|].
  destruct (pd.has_duplicates (d :: ds)); [done|].
  destruct (pd.increasing (d :: ds)) eqn:Ei.
  - intros [= <-]. by exists (fun t => pd.pad_increasing t (rows s) None), d, ds.
  - destruct (pd.decreasing (d :: ds)); [|done].
    intros [= <-]. exists (fun t => pd.pad_decreasing t (rows s) None), d, ds.
    split; [done|]. split; [done|]. intros Hinc. congruence.
Qed.

(** X7: reindexing what [_reindex] returned changes nothing. *)
Theorem reindex_idempotent (s s' : Series) :
  _reindex s = Return s' -> _reindex s' = Return s'.
Proof.
  intros (f & d & ds & Hl & -> & _)%reindex_shape.
  apply reindex_daily.
  pose proof (index_min_le d ds d ltac:(by left)).
  pose proof (index_max_ge d ds d ltac:(by left)). lia.
Qed.

Lemma last_at_or_before_pad (t : date) (rs : list (date * cell)) :
  pd.increasing (pd.labels rs) = true ->
  last_at_or_before t rs = pd.pad_increasing t rs None.
Proof.
  intros Hinc. rewrite pad_increasing_spec by done.
  unfold last_at_or_before. by destruct (last _).
Qed.

(** X8: on an increasing index [_reindex] keeps the name and every row
    of the series, empty values included, and it only adds rows for the
    missing days: the result has exactly one row per day from the first
    to the last label, and a row that is not one of the series is for a
    day strictly between them that the series has no row for, with the
    value of the last row before it. *)
Theorem reindex_keeps_rows (s s' : Series) :
  pd.increasing (pd.labels (rows s)) = true ->
  _reindex s = Return s' ->
  name s' = name s /\
  (forall d v, (d, v) ∈ rows s -> (d, v) ∈ rows s') /\
  exists lo hi,
    head (pd.labels (rows s)) = Some lo /\
    last (pd.labels (rows s)) = Some hi /\
    pd.labels (rows s') = pd.date_range lo hi /\
    forall d v, (d, v) ∈ rows s' ->
      (d, v) ∈ rows s \/
      ((d ∉ pd.labels (rows s)) /\ lo < d < hi /\ v = last_at_or_before d (rows s)).
Proof.
  intros Hinc Hre.
  assert (Hkeep : forall d v, (d, v) ∈ rows s -> last_at_or_before d (rows s) = v).
  { intros d v Hin. rewrite last_at_or_before_pad by done.
    apply list_elem_of_split in Hin as (pre & post & Heq).
    rewrite Heq. apply pad_increasing_at. by rewrite <- Heq. }
  destruct (pd.labels (rows s)) as [|d0 ds] eqn:Hl.
  { unfold _reindex in Hre. by rewrite Hl in Hre. }
  rewrite (reindex_increasing s d0 ds Hl Hinc) in Hre. injection Hre as <-.
  set (hi := default d0 (last ds)).
  assert (Hrange : forall d, d ∈ d0 :: ds -> d0 <= d <= hi).
  { intros d Hd. unfold hi. rewrite <- (index_max_increasing d0 ds Hinc).
    rewrite <- (index_min_increasing d0 ds Hinc) at 1.
    split; [by apply index_min_le | by apply index_max_ge]. }
  split; [done|]. split.
  - intros d v Hin. simpl. apply list_elem_of_fmap. exists d. split.
    + by rewrite (Hkeep d v Hin).
    + apply elem_of_date_range, Hrange. rewrite <- Hl.
      apply list_elem_of_fmap. by exists (d, v).
  - exists d0, hi. split; [done|]. split.
    { rewrite last_cons. unfold hi. by destruct (last ds). }
    split; [simpl; apply labels_fmap|].
    intros d v (t & [= -> ->] & Ht)%list_elem_of_fmap.
    apply elem_of_date_range in Ht.
    destruct (decide (t ∈ d0 :: ds)) as [Hin|Hout].
    + left. rewrite <- Hl in Hin.
      apply list_elem_of_fmap in Hin as ([d' v'] & -> & Hin). simpl.
      by rewrite (Hkeep d' v' Hin).
    + right. split; [done|]. split; [|done].
      assert (t <> d0) by (intros ->; apply Hout; by left).
      assert (t <> hi).
      { intros ->. apply Hout. unfold hi.
        destruct (last ds) eqn:E; simpl; [right; by apply last_Some_elem_of | by left]. }
      lia.
Qed.

(** ** [_get_holding_prices] *)

Lemma setitem_labels (rs : list (date * cell)) (d : date) (v : Q) :
  exists ext, pd.labels (pd.setitem rs d v) = pd.labels rs ++ ext /\
              d ∈ pd.labels (pd.setitem rs d v) /\
              (NoDup (pd.labels rs) -> NoDup (pd.labels (pd.setitem rs d v))).
Proof.
  unfold pd.setitem. destruct (existsb _ rs) eqn:E.
  - assert (Hl : pd.labels ((fun r : date * cell =>
                   if r.1 =? d then (r.1, Some v) else r) <$> rs) = pd.labels rs).
    { unfold pd.labels. rewrite <- list_fmap_compose. apply list_fmap_ext.
      intros _ r _. simpl. by destruct (r.1 =? d). }
    exists []. rewrite Hl, app_nil_r. split; [done|]. split; [|done].
    apply existsb_exists in E as (r & Hr & Heq). apply Z.eqb_eq in Heq as <-.
    apply list_elem_of_fmap. exists r. split; [done|]. by apply list_elem_of_In.
  - exists [d]. unfold pd.labels. rewrite fmap_app. split; [done|]. split.
    + apply elem_of_app. right. by left.
    + intros Hnd. apply NoDup_app. split; [done|]. split; [|apply NoDup_singleton].
      intros x (r & -> & Hr)%list_elem_of_fmap Heq%list_elem_of_singleton.
      simpl in Heq. apply not_true_iff_false in E. apply E, existsb_exists.
      exists r. split; [by apply list_elem_of_In|by apply Z.eqb_eq].
Qed.

(** An index without repeated labels that is neither increasing nor
    decreasing cannot be reindexed. *)
Lemma reindex_not_monotonic (s : Series) (d : date) (ds : list date) :
  pd.labels (rows s) = d :: ds -> NoDup (d :: ds) ->
  pd.increasing (d :: ds) = false -> pd.decreasing (d :: ds) = false ->
  _reindex s = Raise (ValueError "index must be monotonic increasing or decreasing").
Proof.
  intros Hl Hnd Hinc Hdec. unfold _reindex, pd.reindex_pad.
  by rewrite Hl, (proj2 (has_duplicates_NoDup _) Hnd), Hinc, Hdec.
Qed.

Section PricesMore.

Context {Currency : Type}.
Variable yf_history : string -> date -> date -> list (date * cell).
Variable cfg : Config Currency.

Local Abbreviation holding_prices := (_get_holding_prices yf_history cfg).

Lemma set_transaction_prices_labels (trs : list (Transaction Currency))
    (rs : list (date * cell)) :
  exists ext,
    pd.labels (set_transaction_prices trs rs) = pd.labels rs ++ ext /\
    (forall t, t ∈ trs -> is_Some (trs_price t) ->
       trs_date t ∈ pd.labels (set_transaction_prices trs rs)) /\
    (NoDup (pd.labels rs) -> NoDup (pd.labels (set_transaction_prices trs rs))).
Proof.
  unfold set_transaction_prices. revert rs.
  induction trs as [|t trs IH]; intros rs; simpl.
  - exists []. rewrite app_nil_r. split; [done|]. split; [|done].
    intros t []%elem_of_nil.
  - destruct (trs_price t) as [p|] eqn:Ep.
    + destruct (setitem_labels rs (trs_date t) (amount p)) as (e1 & Hl1 & Hin1 & Hnd1).
      destruct (IH (pd.setitem rs (trs_date t) (amount p))) as (e2 & Hl2 & Hin2 & Hnd2).
      exists (e1 ++ e2). split; [by rewrite Hl2, Hl1, <- app_assoc|]. split; [|auto].
      intros t' [->|Ht']%elem_of_cons Hp; [|by apply Hin2].
      rewrite Hl2. apply elem_of_app. by left.
    + destruct (IH rs) as (e2 & Hl2 & Hin2 & Hnd2). exists e2. split; [done|].
      split; [|done].
      intros t' [->|Ht']%elem_of_cons Hp; [|by apply Hin2].
      rewrite Ep in Hp. by destruct Hp.
Qed.

(** X6: a user-supplied series without any row makes the builder raise;
    neither the provider nor the transactions are tried instead. *)
Theorem empty_user_series_raises (start end_ : date) (h : Holding) (p : Series) :
  get_prices cfg h start end_ = Some p -> rows p = [] ->
  outcome (holding_prices start end_ h)
  = Raise (ValueError "Neither `start` nor `end` can be NaT").
Proof.
  intros Hp Hrows. rewrite (holding_prices_user yf_history cfg _ _ _ p Hp).
  unfold _reindex. by rewrite Hrows.
Qed.

(** X9: with prices inferred from transactions over more than one day, a
    priced transaction dated before [start] makes the builder raise: its
    row is added after the last day and the index is no longer
    monotonic. *)
Theorem early_transaction_raises (start end_ : date) (h : Holding)
    (t : Transaction Currency) :
  get_prices cfg h start end_ = None ->
  match ticker h with Some tk => yf_history tk start end_ = [] | None => True end ->
  start < end_ ->
  t ∈ transactions_by_holding cfg h -> is_Some (trs_price t) -> trs_date t < start ->
  outcome (holding_prices start end_ h)
  = Raise (ValueError "index must be monotonic increasing or decreasing").
Proof.
  intros Hp Ht Hse Hin Hpriced Hearly.
  rewrite holding_prices_inferred by done.
  unfold from_transactions. simpl.
  destruct (set_transaction_prices_labels (transactions_by_holding cfg h)
              (pd.empty_series (pd.date_range start end_))) as (ext & Hl & Hdates & Hnd).
  specialize (Hdates t Hin Hpriced).
  assert (Hnd0 : NoDup (pd.labels (pd.empty_series (pd.date_range start end_)))).
  { unfold pd.empty_series. rewrite labels_fmap.
    apply has_duplicates_NoDup, increasing_no_duplicates, increasing_date_range. }
  specialize (Hnd Hnd0).
  unfold pd.empty_series in Hl at 2. rewrite labels_fmap in Hl.
  rewrite (date_range_cons start end_) in Hl at 2 by lia.
  rewrite (date_range_cons (start + 1) end_) in Hl by lia.
  simpl in Hl. rewrite Hl in Hdates, Hnd.
  erewrite reindex_not_monotonic; [done|exact Hl|exact Hnd| |].
  - apply not_true_is_false. intros [Hall _]%increasing_cons.
    apply elem_of_cons in Hdates as [?|Hd]; [lia|].
    apply (proj1 (Forall_forall _ _) Hall) in Hd. lia.
  - simpl. by rewrite (proj2 (Z.ltb_ge _ _)) by lia.
Qed.

End PricesMore.

(** ** [_get_prices] and [__init__] *)

Lemma interpolate_column_keeps (idx : list date) (col : list cell) (j : nat)
    (d : date) (v : Q) :
  idx !! j = Some d -> col !! j = Some (Some v) ->
  pd.interpolate_column idx col !! j = Some (Some v).
Proof.
  intros Hj Hc. unfold pd.interpolate_column.
  pose proof (known_cons idx col j d v Hj Hc) as Hne.
  destruct (pd.known idx col) as [|[x0 y0] pts]; [done|].
  assert (Hz : zip idx col !! j = Some (d, Some v))
    by (apply lookup_zip_with_Some; by exists d, (Some v)).
  by rewrite list_lookup_fmap, Hz.
Qed.

(** The value on the line between two neighbouring known points lies
    between their values. *)
Lemma segment_between (v0 v1 : Q) (d0 d d1 : date) :
  d0 < d < d1 ->
  let v := ((v1 - v0) / inject_Z (d1 - d0) * inject_Z (d - d0) + v0)%Q in
  ((v0 <= v1 -> v0 <= v <= v1) /\ (v1 <= v0 -> v1 <= v <= v0))%Q.
Proof.
  intros Hd v.
  assert (HD : (0 < inject_Z (d1 - d0))%Q).
  { change 0%Q with (inject_Z 0). rewrite <- Zlt_Qlt. lia. }
  assert (HN : (0 <= inject_Z (d - d0))%Q).
  { change 0%Q with (inject_Z 0). rewrite <- Zle_Qle. lia. }
  assert (HND : (inject_Z (d - d0) <= inject_Z (d1 - d0))%Q).
  { rewrite <- Zle_Qle. lia. }
  set (D := inject_Z (d1 - d0)) in *. set (N := inject_Z (d - d0)) in *.
  assert (Ht : exists t, (0 <= t)%Q /\ (t <= 1)%Q /\ (v == (v1 - v0) * t + v0)%Q).
  { exists (N / D)%Q. split; [|split].
    - apply Qle_shift_div_l; [done|]. lra.
    - apply Qle_shift_div_r; [done|]. lra.
    - unfold v. field. lra. }
  destruct Ht as (t & Ht0 & Ht1 & Hv). rewrite Hv.
  split; intros Hle; split; nra.
Qed.

(** X14: a cell filled between two neighbouring known values of its
    column lies between these two values. *)
Theorem interpolation_bounded (idx : list date) (col : list cell)
    (i0 i i1 : nat) (d0 d1 : date) (v0 v1 : Q) :
  pd.increasing idx = true -> length col = length idx ->
  (i0 < i < i1)%nat ->
  idx !! i0 = Some d0 -> idx !! i1 = Some d1 ->
  col !! i0 = Some (Some v0) -> col !! i1 = Some (Some v1) ->
  (forall j, (i0 < j < i1)%nat -> col !! j = Some None) ->
  exists v,
    pd.interpolate_column idx col !! i = Some (Some v) /\
    ((v0 <= v1 -> v0 <= v <= v1) /\ (v1 <= v0 -> v1 <= v <= v0))%Q.
Proof.
  intros Hinc Hlen Hi Hi0 Hi1 Hc0 Hc1 Hgap.
  assert (exists d, idx !! i = Some d) as [d Hid].
  { apply lookup_lt_is_Some. apply lookup_lt_Some in Hi1. lia. }
  destruct (known_around_gap idx col i0 i1 d0 d1 v0 v1) as (kpre & kpost & Hk);
    [done|lia|done..|].
  pose proof (increasing_known idx col Hinc) as Hkinc.
  assert (Hd : d0 < d < d1).
  { split; [apply (increasing_lookup_lt idx i0 i)|apply (increasing_lookup_lt idx i i1)];
      (done || lia). }
  destruct (pd.known idx col) as [|[x0 y0] pts] eqn:E; [by destruct kpre|].
  exists ((v1 - v0) / inject_Z (d1 - d0) * inject_Z (d - d0) + v0)%Q. split.
  - rewrite (interpolate_column_lookup idx col i d x0 y0 pts E Hid) by (apply Hgap; lia).
    do 2 f_equal. by apply (np_interp_segment d d0 d1 v0 v1 kpre kpost).
  - by apply segment_between.
Qed.

Lemma append_inj_r (p a b : string) : p +:+ a = p +:+ b -> a = b.
Proof. induction p as [|c p IH]; simpl; [done|]. intros [= H]. by apply IH. Qed.

Section TableMore.

Context {Currency : Type}.
Variable Currency_getitem : string -> option Currency.
Variable yf_info : string -> gmap string string.
Variable yf_history : string -> date -> date -> list (date * cell).
Variable cfg : Config Currency.

Local Abbreviation holding_prices := (_get_holding_prices yf_history cfg).
Local Abbreviation collect := (collect_prices yf_history cfg).
Local Abbreviation get_prices_of := (_get_prices yf_history cfg).
Local Abbreviation built := (fun (e : Entry) (s : Series) => builds yf_history cfg e s).

(** The builder returns the reindexed series of one source, named by the
    key of the holding unless it is the user's. *)
Lemma holding_prices_source (start end_ : date) (h : Holding) :
  exists l src,
    holding_prices start end_ h = (l, returned (_reindex src)) /\
    Forall (fun m => forall e, m <> stale_warning e) l /\
    (get_prices cfg h start end_ = None -> name src = get_key h).
Proof.
  assert (Hrun : forall (m : LogMsg) (src : Series),
            bind ([m], Return tt) (fun _ => bind (lift (_reindex src)) (fun s => ret (Some s)))
            = ([m], returned (_reindex src))).
  { intros m src. unfold lift. by destruct (_reindex src). }
  unfold _get_holding_prices, from_transactions, log_info, log_warning, stale_warning.
  destruct (get_prices cfg h start end_) as [p|].
  - eexists _, p. rewrite Hrun. split; [done|]. split; [|done].
    repeat constructor. intros e. discriminate.
  - destruct (ticker h) as [t|]; [destruct (0 <? _)%nat|].
    all: eexists _, _; rewrite Hrun; (split; [done|]); (split; [|done]).
    all: repeat constructor; intros e; discriminate.
Qed.

Lemma built_name (e : Entry) (s : Series) :
  built e s ->
  get_prices cfg (entry_holding e) (entry_date e) (end_date cfg) = None ->
  name s = get_key (entry_holding e).
Proof.
  unfold builds. intros Hb Hnone.
  destruct (holding_prices_source (entry_date e) (end_date cfg) (entry_holding e))
    as (l & src & Heq & _ & Hname).
  rewrite Heq in Hb. simpl in Hb.
  destruct (_reindex src) as [s'|] eqn:Er; [|done]. injection Hb as ->.
  apply reindex_shape in Er as (f & d & ds & _ & -> & _). simpl. by apply Hname.
Qed.

(** X10: when no holding has a user-supplied series, the columns of the
    price table are labelled by the keys of the first holdings, in their
    order; the table then has distinct labels, increasing days and
    columns as long as its index. *)
Theorem table_labelled_by_keys (bals : list Balance) (df : DataFrame) :
  (forall h a b, get_prices cfg h a b = None) ->
  outcome (get_prices_of (_get_first_holdings bals)) = Return df ->
  (columns df).*1 = (_get_first_holdings bals).*1 /\ well_formed df.
Proof.
  intros Hnone Hout. pose proof (first_holdings_keyed bals) as Hkeyed.
  destruct (get_prices_shape yf_history cfg _ df Hout) as [Hinc Hlen].
  set (fh := _get_first_holdings bals) in *.
  destruct (get_prices_inv yf_history cfg fh df Hout) as (ss & Hne & Hall).
  destruct (get_prices_table yf_history cfg fh ss Hne Hall) as (df' & Hout' & _ & Hcols).
  rewrite Hout in Hout'. injection Hout' as <-.
  assert (Hnames : (columns df).*1 = fh.*1).
  { rewrite Hcols, <- list_fmap_compose.
    rewrite <- (keyed_entries fh) by done.
    clear -Hall Hnone. induction Hall as [|e s es ss Hb _ IH]; [done|].
    rewrite !fmap_cons. simpl. rewrite IH. f_equal. by apply built_name. }
  split; [done|]. split; [done|]. split; [|done].
  rewrite Hnames. apply Hkeyed.
Qed.

(** X12: the days of the price table are increasing, and they are
    exactly the days of the series of the holdings. *)
Theorem table_days (fh : list (string * Entry)) (df : DataFrame) :
  outcome (get_prices_of fh) = Return df ->
  pd.increasing (index df) = true /\
  exists ss,
    Forall2 built fh.*2 ss /\
    forall d, d ∈ index df <-> exists s, s ∈ ss /\ d ∈ pd.labels (rows s).
Proof.
  intros Hout. split; [by apply (get_prices_shape yf_history cfg fh)|].
  destruct (get_prices_inv yf_history cfg fh df Hout) as (ss & Hne & Hall).
  destruct (get_prices_table yf_history cfg fh ss Hne Hall) as (df' & Hout' & Hidx & _).
  rewrite Hout in Hout'. injection Hout' as <-.
  exists ss. split; [done|]. intros d.
  rewrite Hidx, elem_of_union_index, list_elem_of_join. split.
  - intros (l & Hd & (s & -> & Hs)%list_elem_of_fmap). by exists s.
  - intros (s & Hs & Hd). exists (pd.labels (rows s)). split; [done|].
    apply list_elem_of_fmap. by exists s.
Qed.

(** X13: a value that the series of a holding has on some day is the
    value of the holding's column on that day of the price table:
    alignment and interpolation never alter a price that is known. *)
Theorem known_prices_survive (fh : list (string * Entry)) (df : DataFrame)
    (i : nat) (k : string) (e : Entry) (s : Series) (d : date) (v : Q) :
  outcome (get_prices_of fh) = Return df ->
  fh !! i = Some (k, e) -> built e s ->
  pd.at_label (rows s) d = Some v ->
  exists col j,
    columns df !! i = Some (name s, col) /\
    index df !! j = Some d /\ col !! j = Some (Some v).
Proof.
  intros Hout Hi Hb Hv.
  destruct (get_prices_inv yf_history cfg fh df Hout) as (ss & Hne & Hall).
  destruct (get_prices_table yf_history cfg fh ss Hne Hall) as (df' & Hout' & Hidx & Hcols).
  rewrite Hout in Hout'. injection Hout' as <-.
  assert (He : fh.*2 !! i = Some e) by (by rewrite list_lookup_fmap, Hi).
  destruct (Forall2_lookup_l _ _ _ _ _ Hall He) as (s' & Hs & Hb').
  assert (s' = s) as -> by (unfold builds in *; congruence).
  assert (Hd : d ∈ index df).
  { rewrite Hidx. apply elem_of_union_index, list_elem_of_join.
    exists (pd.labels (rows s)). split; [by apply (at_label_Some _ _ v)|].
    apply list_elem_of_fmap. exists s. split; [done|].
    by apply list_elem_of_lookup_2 with i. }
  apply list_elem_of_lookup_1 in Hd as [j Hj].
  eexists _, j. split; [by rewrite Hcols, list_lookup_fmap, Hs|]. split; [done|].
  apply (interpolate_column_keeps _ _ j d v Hj).
  by rewrite list_lookup_fmap, Hj, <- Hv.
Qed.

Lemma collect_prices_logs (e : Entry) (acc : list Series) (m : LogMsg) (e0 : Entry) :
  m ∈ logs (collect e acc) -> m = stale_warning e0 ->
  exists s, built e s /\ stale s = true /\ m = stale_warning e.
Proof.
  unfold collect_prices, builds.
  destruct (holding_prices_source (entry_date e) (end_date cfg) (entry_holding e))
    as (l & src & Heq & Hl & _).
  rewrite Heq. destruct (_reindex src) as [s|x]; simpl.
  - unfold log_warning. destruct (stale s) eqn:Est; simpl.
    + rewrite elem_of_app. intros [Hm|Hm] ->.
      * by destruct (proj1 (Forall_forall _ _) Hl _ Hm e0).
      * apply list_elem_of_singleton in Hm. by exists s.
    + rewrite app_nil_r. intros Hm ->.
      by destruct (proj1 (Forall_forall _ _) Hl _ Hm e0).
  - intros Hm ->. by destruct (proj1 (Forall_forall _ _) Hl _ Hm e0).
Qed.

(** X15: the staleness warning of a key is only logged for a holding of
    that key whose series has its last seven rows empty. *)
Theorem stale_warning_only_when_stale (fh : list (string * Entry)) (k : string) :
  Warning ("Most recent price is older than one week for " +:+ k)
    ∈ logs (get_prices_of fh) ->
  exists e s,
    e ∈ fh.*2 /\ get_key (entry_holding e) = k /\ built e s /\
    Forall (fun r => r.2 = None) (pd.tail 7 (rows s)).
Proof.
  set (e0 := {| entry_date := 0;
                entry_holding := {| get_key := k; ticker := None; quantity := 0%Q |} |}).
  change (Warning _) with (stale_warning e0).
  unfold _get_prices. rewrite logs_bind, elem_of_app.
  assert (Hloop : forall es acc,
            stale_warning e0 ∈ logs (for_each collect es acc) ->
            exists e s, e ∈ es /\ get_key (entry_holding e) = k /\ built e s /\
              stale s = true).
  { induction es as [|e es IH]; intros acc; cbn [for_each].
    - simpl. by intros []%elem_of_nil.
    - rewrite logs_bind, elem_of_app. intros [Hm|Hm].
      + destruct (collect_prices_logs e acc _ e0 Hm eq_refl) as (s & Hb & Hst & Heq).
        exists e, s. split; [by left|]. split; [|done].
        unfold stale_warning in Heq. injection Heq as Heq.
        apply append_inj_r in Heq. by rewrite <- Heq.
      + destruct (outcome (collect e acc)) as [acc'|x]; [|by apply elem_of_nil in Hm].
        destruct (IH acc' Hm) as (e' & s & He' & Hrest).
        exists e', s. split; [by right|done]. }
  intros [Hm|Hm].
  - destruct (Hloop _ _ Hm) as (e & s & He & Hk & Hb & Hst).
    exists e, s. split; [done|]. split; [done|]. split; [done|].
    by apply stale_spec.
  - destruct (outcome (for_each collect fh.*2 [])) as [ss|x]; [|by apply elem_of_nil in Hm].
    unfold lift in Hm. destruct (pd.concat ss); simpl in Hm; by apply elem_of_nil in Hm.
Qed.

Lemma visited_nil (bals : list Balance) :
  Forall (fun b => bal_holdings b = []) bals -> visited bals = [].
Proof.
  unfold visited. induction 1 as [|b bals Hb _ IH]; [done|].
  rewrite bind_cons, IH, Hb. done.
Qed.

(** X11: a portfolio whose balances hold nothing cannot be built: the
    price table has no series to concatenate. *)
Theorem no_holdings_raises (bals : list Balance) :
  Forall (fun b => bal_holdings b = []) bals ->
  outcome (__init__ Currency_getitem yf_info yf_history cfg bals)
  = Raise (ValueError "No objects to concatenate").
Proof.
  intros Hall. unfold __init__.
  rewrite first_holdings_visited, (visited_nil bals Hall). reflexivity.
Qed.

(** X16: a project that is built has, for its first holdings, a currency
    each and no other, and a price column each, over increasing days. *)
Theorem init_success (bals : list Balance) (self : @Project Currency) :
  outcome (__init__ Currency_getitem yf_info yf_history cfg bals) = Return self ->
  balances self = bals /\
  _first_holdings self = _get_first_holdings bals /\
  dom (_holding_to_currency self) = list_to_set (_get_first_holdings bals).*1 /\
  length (columns (_prices self)) = length (_get_first_holdings bals) /\
  pd.increasing (index (_prices self)) = true /\
  Forall (fun c => length c.2 = length (index (_prices self))) (columns (_prices self)).
Proof.
  unfold __init__. intros (m & Hm & Hrest)%outcome_bind_inv.
  apply outcome_bind_inv in Hrest as (df & Hdf & Hret).
  simpl in Hret. injection Hret as <-. simpl.
  split; [done|]. split; [done|].
  pose proof (first_holdings_keyed bals) as Hkeyed.
  set (fh := _get_first_holdings bals) in *.
  destruct (get_prices_shape yf_history cfg fh df Hdf) as [Hinc Hlen].
  destruct (get_prices_inv yf_history cfg fh df Hdf) as (ss & Hne & Hall).
  destruct (get_prices_table yf_history cfg fh ss Hne Hall) as (df' & Hdf' & _ & Hcols).
  rewrite Hdf in Hdf'. injection Hdf' as <-.
  split; [|split; [|done]].
  - by apply (currencies_dom_keyed Currency_getitem yf_info cfg).
  - rewrite Hcols, length_fmap. apply Forall2_length in Hall.
    by rewrite length_fmap in Hall.
Qed.

End TableMore.

(** ** [_get_attrs_report_data] *)

Lemma filter_label_absent (cs : list (string * list cell)) (k : string) :
  k ∉ cs.*1 -> filter (fun col : string * list cell => col.1 = k) cs = [].
Proof.
  induction cs as [|x cs IH]; [done|]. rewrite fmap_cons, not_elem_of_cons.
  intros [Hne Hk]. rewrite filter_cons_False by (simpl; congruence). by apply IH.
Qed.

Lemma filter_label_unique (cs : list (string * list cell)) (c : string * list cell) :
  NoDup cs.*1 -> c ∈ cs ->
  filter (fun col : string * list cell => col.1 = c.1) cs = [c].
Proof.
  induction cs as [|x cs IH]; intros Hnd Hc; [by apply elem_of_nil in Hc|].
  rewrite fmap_cons in Hnd. apply NoDup_cons in Hnd as [Hx Hnd].
  apply elem_of_cons in Hc as [->|Hc].
  - rewrite filter_cons_True by done. by rewrite filter_label_absent.
  - rewrite filter_cons_False; [by apply IH|].
    simpl. intros Heq. apply Hx. rewrite Heq. by apply list_elem_of_fmap_2.
Qed.

(** With distinct labels the datasets are the columns, in order. *)
Lemma area_datasets_columns (df : DataFrame) :
  NoDup (columns df).*1 -> area_datasets df (columns df).*1 = inr (columns df).
Proof.
  intros Hnd.
  assert (H : forall cs, cs ⊆ columns df -> area_datasets df cs.*1 = inr cs);
    [|by apply H].
  induction cs as [|c cs IH]; intros Hsub; [done|].
  rewrite fmap_cons. simpl. unfold column_tolist.
  rewrite (filter_label_unique _ c Hnd) by (apply Hsub; by left).
  rewrite IH by (intros x Hx; apply Hsub; by right). by destruct c.
Qed.

Lemma dict_set_fresh {V} (k : string) (v : V) (d : list (string * V)) :
  k ∉ d.*1 -> dict_set k v d = d ++ [(k, v)].
Proof.
  intros Hk. unfold dict_set.
  assert (existsb (fun p : string * V => String.eqb p.1 k) d = false) as ->; [|done].
  apply not_true_is_false. intros (p & Hp & Heq)%existsb_exists.
  apply String.eqb_eq in Heq as <-. apply Hk.
  apply list_elem_of_fmap_2. by apply list_elem_of_In.
Qed.

(** The last row of an aligned table holds the last cell of each column. *)
Lemma last_row_aligned (df : DataFrame) (d : date) (ds : list date) :
  index df = d :: ds ->
  Forall (fun c => length c.2 = length (index df)) (columns df) ->
  last_row df = inr ((fun c => default None (last c.2)) <$> columns df).
Proof.
  intros Hidx Hlen. unfold last_row, pd.row. rewrite Hidx. f_equal.
  apply Forall_fmap_ext_1. eapply Forall_impl; [exact Hlen|].
  intros c Hc. simpl in *. rewrite last_lookup, Hc, Hidx. simpl.
  by rewrite Nat.sub_0_r.
Qed.

Section ChartsProperties.

Context {Weights : Type}.
Variable get_attr_allocations : DataFrame -> Weights -> DataFrame.

Local Abbreviation attrs_report := (_get_attrs_report_data get_attr_allocations).
Local Abbreviation line := (fun attr : string =>
  Info ("Generating report for attribute " +:+ attr)).

Lemma attrs_loop_spec (allocations : DataFrame) (meta : list (string * Weights))
    (reports : list (string * list AttrChart)) :
  NoDup (reports.*1 ++ meta.*1) ->
  (Forall (fun p => chartable (get_attr_allocations allocations p.2)) meta ->
   attrs_loop get_attr_allocations allocations meta reports =
   (line <$> meta.*1,
    inr (reports ++ ((fun p => (p.1, attr_charts (get_attr_allocations allocations p.2)))
                       <$> meta)))) /\
  (forall pre attr w post,
     meta = pre ++ (attr, w) :: post ->
     Forall (fun p => chartable (get_attr_allocations allocations p.2)) pre ->
     index (get_attr_allocations allocations w) = [] ->
     attrs_loop get_attr_allocations allocations meta reports =
     (line <$> (pre.*1 ++ [attr]), inl (IndexError "list index out of range"))).
Proof.
  revert reports. induction meta as [|[a w0] meta IH]; intros reports Hnd.
  - split; [by rewrite app_nil_r|]. intros pre attr w post Heq. by destruct pre.
  - assert (Hstep : forall t,
              chartable t ->
              last_row t = inr ((fun c => default None (last c.2)) <$> columns t) /\
              area_datasets t (columns t).*1 = inr (columns t)).
    { intros t (Hrows & Hlab & Hlen). split; [|by apply area_datasets_columns].
      destruct (index t) as [|d ds] eqn:Hidx; [done|].
      apply (last_row_aligned t d ds Hidx). by rewrite Hidx. }
    assert (Hnd' : forall charts,
              NoDup ((dict_set a charts reports).*1 ++ meta.*1) /\
              dict_set a charts reports = reports ++ [(a, charts)]).
    { intros charts. rewrite fmap_cons in Hnd. simpl in Hnd.
      assert (Ha : a ∉ reports.*1).
      { apply NoDup_app in Hnd as (_ & Hdisj & _). intros Hin.
        apply (Hdisj _ Hin). by left. }
      rewrite (dict_set_fresh a charts reports Ha). split; [|done].
      rewrite fmap_app. simpl. rewrite <- app_assoc. done. }
    split.
    + intros [Hc Hall]%Forall_cons. simpl in Hc.
      destruct (Hstep _ Hc) as [Hlast Hds]. cbn [attrs_loop]. rewrite Hlast, Hds.
      fold (attr_charts (get_attr_allocations allocations w0)).
      destruct (Hnd' (attr_charts (get_attr_allocations allocations w0))) as [Hnd2 Hset].
      destruct (IH _ Hnd2) as [IHall _]. rewrite (IHall Hall), Hset.
      by rewrite !fmap_cons, <- app_assoc.
    + intros pre attr w post Heq Hpre Hempty.
      destruct pre as [|[a' w'] pre]; simpl in Heq; injection Heq as -> -> ->.
      * cbn [attrs_loop]. unfold last_row. by rewrite Hempty.
      * apply Forall_cons in Hpre as [Hc Hpre]. simpl in Hc.
        destruct (Hstep _ Hc) as [Hlast Hds]. cbn [attrs_loop]. rewrite Hlast, Hds.
        fold (attr_charts (get_attr_allocations allocations w')).
        destruct (Hnd' (attr_charts (get_attr_allocations allocations w'))) as [Hnd2 _].
        destruct (IH _ Hnd2) as [_ IHraise].
        by rewrite (IHraise pre attr w post eq_refl Hpre Hempty).
Qed.

(** X17: an attribute whose allocation table has no row makes the
    attribute report raise IndexError, after the line of that attribute
    is logged; no report is returned for the attributes before it. *)
Theorem attrs_empty_table_raises (_meta : list (string * Weights)) (allocations : DataFrame)
    (pre post : list (string * Weights)) (attr : string) (w : Weights) :
  NoDup _meta.*1 ->
  _meta = pre ++ (attr, w) :: post ->
  Forall (fun p => chartable (get_attr_allocations allocations p.2)) pre ->
  index (get_attr_allocations allocations w) = [] ->
  attrs_report _meta allocations =
  (line <$> (pre.*1 ++ [attr]), inl (IndexError "list index out of range")).
Proof.
  intros Hnd Heq Hpre Hempty. unfold _get_attrs_report_data.
  by apply (proj2 (attrs_loop_spec allocations _meta [] Hnd) pre attr w post).
Qed.

(** X18: when the table of every attribute has a row, distinct labels
    and aligned columns, the report has one entry per attribute, in
    order: a pie chart whose values are the last values of the datasets
    of the area chart, under the same labels, and the area chart of the
    columns over the days of the table; one line per attribute is logged. *)
Theorem attrs_charts (_meta : list (string * Weights)) (allocations : DataFrame) :
  NoDup _meta.*1 ->
  Forall (fun p => chartable (get_attr_allocations allocations p.2)) _meta ->
  attrs_report _meta allocations =
  (line <$> _meta.*1,
   inr ((fun p =>
           (p.1,
            [piechart "Allocation"
               ((fun c => default None (last c.2))
                  <$> columns (get_attr_allocations allocations p.2))
               (columns (get_attr_allocations allocations p.2)).*1;
             areachart "Allocation history"
               (columns (get_attr_allocations allocations p.2))
               (index (get_attr_allocations allocations p.2))])) <$> _meta)).
Proof.
  intros Hnd Hall. unfold _get_attrs_report_data.
  by rewrite (proj1 (attrs_loop_spec allocations _meta [] Hnd) Hall).
Qed.

End ChartsProperties.

(** ** [_gen_animated_plot] *)

Lemma py_slice_inside {A} (a b : Z) (l : list A) :
  0 <= a <= b -> b <= Z.of_nat (length l) ->
  py_slice a b l = take (Z.to_nat (b - a)) (drop (Z.to_nat a) l).
Proof.
  intros Ha Hb. unfold py_slice.
  rewrite (proj2 (Z.ltb_ge a 0)), (proj2 (Z.ltb_ge b 0)) by lia.
  by rewrite !Z.min_l by lia.
Qed.

(** X19: with days <= 0 or a table without rows there is no frame and
    the save raises; otherwise the animation has min(days, rows) frames,
    and frame [i] plots, for every column, the first [i] of the last
    min(days, rows) rows: the first frame is empty and no frame reaches
    the most recent row. *)
Theorem animation_frames (ndays : Z) (df : DataFrame) :
  Forall (fun c => length c.2 = length (index df)) (columns df) ->
  let shown := Z.to_nat (Z.min ndays (Z.of_nat (length (index df)))) in
  (shown = 0%nat ->
   _gen_animated_plot ndays df = inl (IndexError "list index out of range")) /\
  ((0 < shown)%nat ->
   exists frames,
     _gen_animated_plot ndays df = inr frames /\
     length frames = shown /\
     forall i frame,
       frames !! i = Some frame ->
       (i < shown <= length (index df))%nat /\
       frame =
       imap (fun j c =>
               (default ""%string (colors !! (j mod length colors)%nat),
                take i (pd.tail shown (index df)),
                take i (pd.tail shown c.2)))
            (columns df)).
Proof.
  intros Hlen shown. unfold _gen_animated_plot, plot_frames. fold shown. split.
  { intros H0. rewrite (proj2 (Z.leb_le _ _)); [done|]. unfold shown in H0. lia. }
  intros Hpos. rewrite (proj2 (Z.leb_gt _ _)) by (unfold shown in Hpos; lia).
  eexists. split; [done|].
  split; [by rewrite length_fmap, length_seq|].
  intros i frame Hi. rewrite list_lookup_fmap in Hi.
  destruct (seq 0 shown !! i) as [i'|] eqn:Hs; [|done].
  apply lookup_seq in Hs as [-> Hlt]. simpl in Hi. injection Hi as <-.
  split; [unfold shown; lia|].
  unfold update_frame, plot_start, plot_frames.
  assert (Hslice : forall (A : Type) (l : list A),
            length l = length (index df) ->
            py_slice (Z.of_nat (length (index df))
                      - Z.min ndays (Z.of_nat (length (index df))))
                     (Z.of_nat (length (index df))
                      - Z.min ndays (Z.of_nat (length (index df))) + Z.of_nat i) l
            = take i (pd.tail shown l)).
  { intros A l Hl. rewrite py_slice_inside by (unfold shown in Hlt; lia).
    unfold pd.tail. f_equal; [lia|]. f_equal. unfold shown. lia. }
  rewrite (Hslice _ (index df) eq_refl).
  clear -Hlen Hslice.
  assert (H : forall (cs : list (string * list cell)) (f g : nat -> string * list cell
                      -> string * list date * list cell),
            (forall j c, c ∈ cs -> f j c = g j c) -> imap f cs = imap g cs).
  { induction cs as [|c cs IH]; intros f g Hfg; [done|]. simpl. f_equal.
    - apply Hfg. by left.
    - apply IH. intros j c' Hc'. apply Hfg. by right. }
  apply H. intros j c Hc. f_equal. apply Hslice.
  by apply (proj1 (Forall_forall _ _) Hlen).
Qed.

(** X20: filling the gaps of a table that is already filled changes
    nothing. *)
Theorem interpolate_idempotent (df : DataFrame) :
  pd.interpolate (pd.interpolate df) = pd.interpolate df.
Proof.
  unfold pd.interpolate. cbn [index columns]. f_equal.
  rewrite <- list_fmap_compose. apply list_fmap_ext. intros _ [k col] _. simpl.
  f_equal. generalize (index df) as idx. intros idx.
  assert (Hfix : forall (idx' : list date) (res : list cell),
            Forall is_Some res -> (length res <= length idx')%nat ->
            pd.interpolate_column idx' res = res).
  { intros idx' res Hres Hlen. unfold pd.interpolate_column.
    destruct (pd.known idx' res) as [|[x1 y1] pts']; [done|].
    rewrite <- (snd_zip idx' res) at 2 by done.
    apply list_fmap_ext. intros j r Hr. simpl.
    assert (Hin : r.2 ∈ res).
    { apply (list_elem_of_lookup_2 _ j) in Hr.
      apply (list_elem_of_fmap_2 snd) in Hr. by rewrite snd_zip in Hr. }
    apply (proj1 (Forall_forall _ _) Hres) in Hin as [v ->]. done. }
  destruct (pd.known idx col) as [|[x0 y0] pts] eqn:Ek.
  - assert (Hcol : pd.interpolate_column idx col = col)
      by (unfold pd.interpolate_column; by rewrite Ek).
    by rewrite !Hcol.
  - assert (Hcol : pd.interpolate_column idx col =
                   (fun r : date * cell =>
                      match r.2 with
                      | Some v => Some v
                      | None => Some (pd.np_interp r.1 x0 y0 pts)
                      end) <$> zip idx col)
      by (unfold pd.interpolate_column; by rewrite Ek).
    rewrite !Hcol. apply Hfix.
    + apply Forall_fmap, Forall_forall. intros r _. simpl. destruct (r.2); by eexists.
    + rewrite length_fmap, length_zip_with. lia.
Qed.

(** ** The further properties on the sample data *)

Lemma currencies_domain_witness :
  exists m,
    outcome (_get_currencies Sample.Cur_getitem Sample.no_info Sample.one_quote
               (_get_first_holdings [Sample.balanceA 0])) = Return m /\
    dom m = list_to_set (_get_first_holdings [Sample.balanceA 0]).*1.
Proof.
  eexists. split; [vm_compute; reflexivity|].
  apply (currencies_domain Sample.Cur_getitem Sample.no_info Sample.one_quote
           [Sample.balanceA 0]).
  vm_compute. reflexivity.
Defined.

Lemma empty_user_series_raises_witness :
  outcome (_get_holding_prices Sample.no_history SampleMore.empty_user 0 2 Sample.holdingA)
  = Raise (ValueError "Neither `start` nor `end` can be NaT").
Proof.
  apply (empty_user_series_raises Sample.no_history SampleMore.empty_user 0 2
           Sample.holdingA {| name := "A"; rows := [] |}); reflexivity.
Defined.

Lemma reindex_idempotent_witness :
  _reindex SampleMore.gapped_daily = Return SampleMore.gapped_daily.
Proof.
  apply (reindex_idempotent SampleMore.gapped SampleMore.gapped_daily). reflexivity.
Defined.

Lemma reindex_keeps_rows_witness :
  name SampleMore.gapped_daily = name SampleMore.gapped /\
  (forall d v, (d, v) ∈ rows SampleMore.gapped -> (d, v) ∈ rows SampleMore.gapped_daily) /\
  exists lo hi,
    head (pd.labels (rows SampleMore.gapped)) = Some lo /\
    last (pd.labels (rows SampleMore.gapped)) = Some hi /\
    pd.labels (rows SampleMore.gapped_daily) = pd.date_range lo hi /\
    forall d v, (d, v) ∈ rows SampleMore.gapped_daily ->
      (d, v) ∈ rows SampleMore.gapped \/
      ((d ∉ pd.labels (rows SampleMore.gapped)) /\ lo < d < hi /\
       v = last_at_or_before d (rows SampleMore.gapped)).
Proof.
  apply (reindex_keeps_rows SampleMore.gapped SampleMore.gapped_daily); reflexivity.
Defined.

Lemma early_transaction_raises_witness :
  outcome (_get_holding_prices Sample.no_history SampleMore.early 0 2 Sample.holdingA)
  = Raise (ValueError "index must be monotonic increasing or decreasing").
Proof.
  apply (early_transaction_raises Sample.no_history SampleMore.early 0 2 Sample.holdingA
           (Sample.buy (-1) 10 100 Sample.USD)).
  - reflexivity.
  - exact I.
  - lia.
  - by left.
  - by eexists.
  - simpl. lia.
Defined.

Lemma table_labelled_by_keys_witness :
  exists df,
    outcome (_get_prices Sample.no_history Sample.scenario
               (_get_first_holdings Sample.scenario_balances)) = Return df /\
    (columns df).*1 = (_get_first_holdings Sample.scenario_balances).*1 /\
    well_formed df.
Proof.
  eexists. split; [vm_compute; reflexivity|].
  apply (table_labelled_by_keys Sample.no_history Sample.scenario Sample.scenario_balances).
  - reflexivity.
  - vm_compute. reflexivity.
Defined.

Lemma table_days_witness :
  exists df,
    outcome (_get_prices Sample.no_history Sample.scenario
               (_get_first_holdings Sample.scenario_balances)) = Return df /\
    pd.increasing (index df) = true /\
    exists ss,
      Forall2 (builds Sample.no_history Sample.scenario)
              (_get_first_holdings Sample.scenario_balances).*2 ss /\
      forall d, d ∈ index df <-> exists s, s ∈ ss /\ d ∈ pd.labels (rows s).
Proof.
  eexists. split; [vm_compute; reflexivity|].
  apply (table_days Sample.no_history Sample.scenario).
  vm_compute. reflexivity.
Defined.

Lemma known_prices_survive_witness :
  exists df col j,
    outcome (_get_prices Sample.no_history Sample.two_quotes
               (_get_first_holdings [Sample.balanceA 0])) = Return df /\
    columns df !! 0%nat = Some ("A"%string, col) /\
    index df !! j = Some 10 /\ col !! j = Some (Some 200%Q).
Proof.
  eexists. 
  destruct (known_prices_survive Sample.no_history Sample.two_quotes
              (_get_first_holdings [Sample.balanceA 0]) _ 0%nat "A" (Sample.entryA 0)
              SampleMore.two_quotes_series 10 200%Q
              ltac:(vm_compute; reflexivity) eq_refl
              ltac:(unfold builds; vm_compute; reflexivity) eq_refl)
    as (col & j & Hcol & Hj & Hv).
  exists col, j. split; [vm_compute; reflexivity|]. by repeat split.
Defined.

Lemma interpolation_bounded_witness :
  exists v,
    pd.interpolate_column (pd.date_range 0 10)
      (Some 100%Q :: replicate 9 None ++ [Some 200%Q]) !! 5%nat = Some (Some v) /\
    ((100 <= 200 -> 100 <= v <= 200) /\ (200 <= 100 -> 200 <= v <= 100))%Q.
Proof.
  apply (interpolation_bounded (pd.date_range 0 10)
           (Some 100%Q :: replicate 9 None ++ [Some 200%Q])
           0%nat 5%nat 10%nat 0 10 100%Q 200%Q);
    try reflexivity; [lia|].
  intros j Hj.
  do 10 (destruct j as [|j]; [reflexivity || lia|]). lia.
Defined.

Lemma stale_warning_only_when_stale_witness :
  exists e s,
    e ∈ (_get_first_holdings [Sample.balanceA 0]).*2 /\
    get_key (entry_holding e) = "A"%string /\
    builds Sample.no_history Sample.old_quote e s /\
    Forall (fun r => r.2 = None) (pd.tail 7 (rows s)).
Proof.
  apply (stale_warning_only_when_stale Sample.no_history Sample.old_quote
           (_get_first_holdings [Sample.balanceA 0]) "A").
  apply list_elem_of_lookup_2 with 1%nat. reflexivity.
Defined.

Lemma no_holdings_raises_witness :
  outcome (__init__ Sample.Cur_getitem Sample.no_info Sample.no_history Sample.one_quote
             [{| bal_date := 0; bal_holdings := [] |}])
  = Raise (ValueError "No objects to concatenate").
Proof.
  apply (no_holdings_raises Sample.Cur_getitem Sample.no_info Sample.no_history
           Sample.one_quote). repeat constructor.
Defined.

Lemma init_success_witness :
  exists self,
    outcome (__init__ Sample.Cur_getitem Sample.no_info Sample.no_history
               Sample.scenario Sample.scenario_balances) = Return self /\
    balances self = Sample.scenario_balances /\
    _first_holdings self = _get_first_holdings Sample.scenario_balances /\
    dom (_holding_to_currency self)
      = list_to_set (_get_first_holdings Sample.scenario_balances).*1 /\
    length (columns (_prices self)) = length (_get_first_holdings Sample.scenario_balances) /\
    pd.increasing (index (_prices self)) = true /\
    Forall (fun c => length c.2 = length (index (_prices self))) (columns (_prices self)).
Proof.
  eexists. split; [vm_compute; reflexivity|].
  apply (init_success Sample.Cur_getitem Sample.no_info Sample.no_history Sample.scenario).
  vm_compute. reflexivity.
Defined.

Lemma attrs_empty_table_raises_witness :
  _get_attrs_report_data SampleMore.attr_allocations
    [("class"%string, true); ("region"%string, false); ("risk"%string, true)]
    SampleMore.table
  = ((fun attr => Info ("Generating report for attribute " +:+ attr))
       <$> ["class"; "region"]%string,
     inl (IndexError "list index out of range")).
Proof.
  apply (attrs_empty_table_raises SampleMore.attr_allocations
           [("class"%string, true); ("region"%string, false); ("risk"%string, true)]
           SampleMore.table [("class"%string, true)] [("risk"%string, true)]
           "region" false).
  - apply (bool_decide_unpack _). vm_compute. reflexivity.
  - reflexivity.
  - constructor; [|constructor]. split; [done|]. split; [|repeat constructor].
    apply (bool_decide_unpack _). vm_compute. reflexivity.
  - reflexivity.
Defined.

Lemma attrs_charts_witness :
  _get_attrs_report_data SampleMore.attr_allocations [("class"%string, true)]
    SampleMore.table
  = ([Info "Generating report for attribute class"],
     inr [("class"%string,
           [piechart "Allocation" [Some 3%Q; Some 6%Q] ["A"; "B"]%string;
            areachart "Allocation history" (columns SampleMore.table) [1; 2; 3]])]).
Proof.
  apply (attrs_charts SampleMore.attr_allocations [("class"%string, true)]
           SampleMore.table).
  - apply (bool_decide_unpack _). vm_compute. reflexivity.
  - constructor; [|constructor]. split; [done|]. split; [|repeat constructor].
    apply (bool_decide_unpack _). vm_compute. reflexivity.
Defined.

Lemma animation_frames_witness :
  (2%nat = 0%nat ->
   _gen_animated_plot 2 SampleMore.table = inl (IndexError "list index out of range")) /\
  ((0 < 2)%nat ->
   exists frames,
     _gen_animated_plot 2 SampleMore.table = inr frames /\
     length frames = 2%nat /\
     forall i frame,
       frames !! i = Some frame ->
       (i < 2 <= 3)%nat /\
       frame =
       imap (fun j c =>
               (default ""%string (colors !! (j mod length colors)%nat),
                take i (pd.tail 2 (index SampleMore.table)),
                take i (pd.tail 2 c.2)))
            (columns SampleMore.table)).
Proof.
  apply (animation_frames 2 SampleMore.table). repeat constructor.
Defined.

(** No frame, no file: a report over no day, and a table without rows. *)
Example no_frame_to_save :
  _gen_animated_plot 0 SampleMore.table = inl (IndexError "list index out of range") /\
  _gen_animated_plot 5 SampleMore.no_rows = inl (IndexError "list index out of range").
Proof. split; reflexivity. Qed.
